(** * json_serialization: the encode/decode engine of [serialization/serializable.py]

    A shallow embedding of the registry-driven serializer: Python values as a
    tree of scalars, lists, insertion-ordered dictionaries and instances;
    the three process-wide registries as finite maps; [serialize_object],
    [serialize], [deserialize], [deserialize_dict], [deserialize_list] and the
    registration entry points as functions that pass the mutated object
    along with their result. *)

From Stdlib Require Import String ZArith List Bool Lia Permutation.
From stdpp Require Import base option countable gmap strings.
Import ListNotations.

Local Open Scope string_scope.
Local Open Scope list_scope.

(** ** Python values *)

(** A type object: its identity, [__module__] and [__name__]. *)
Record pytype := PyType {
  ty_id : nat;
  ty_module : option string;
  ty_name : string
}.

#[global] Instance pytype_eq_dec : EqDecision pytype.
Proof. solve_decision. Defined.

#[global] Instance pytype_countable : Countable pytype.
Proof.
  refine (inj_countable'
            (fun t => (ty_id t, ty_module t, ty_name t))
            (fun p => PyType p.1.1 p.1.2 p.2) _).
  intros []; reflexivity.
Defined.

(** The values the engine handles.  [VDict] is a [dict] with string keys in
    insertion order; [VObj t d] is an instance of [t] whose [__dict__] is [d];
    [VOpaque t s] is an instance without [__dict__] (a [datetime], say),
    identified by the text [s] that its [__str__] returns.  Floats, tuples
    and keys other than strings are left out. *)
Unset Elimination Schemes.
Inductive pyvalue :=
| VNone
| VBool (b : bool)
| VInt (z : Z)
| VStr (s : string)
| VList (l : list pyvalue)
| VDict (d : list (string * pyvalue))
| VObj (t : pytype) (d : list (string * pyvalue))
| VOpaque (t : pytype) (s : string).
Set Elimination Schemes.

Abbreviation pydict := (list (string * pyvalue)).

Inductive exn :=
| TypeError (msg : string)
| KeyError (key : string)
| AttributeError (name : string)
| RuntimeError (msg : string)
| RecursionError
| Raised (what : string).

Inductive result (A : Type) :=
| Ok (a : A)
| Err (e : exn).
Arguments Ok {A} a.
Arguments Err {A} e.

Definition bind {A B} (r : result A) (k : A -> result B) : result B :=
  match r with
  | Ok a => k a
  | Err e => Err e
  end.

Notation "'let*' x ':=' r 'in' k" := (bind r (fun x => k))
  (at level 10, x pattern, r at level 100, k at level 200).

(** ** Builtin type objects *)

Definition builtins : option string := Some "builtins".

Definition NoneType_t := PyType 0 builtins "NoneType".
Definition bool_t := PyType 1 builtins "bool".
Definition int_t := PyType 2 builtins "int".
Definition str_t := PyType 3 builtins "str".
Definition list_t := PyType 4 builtins "list".
Definition dict_t := PyType 5 builtins "dict".
Definition datetime_t := PyType 6 (Some "datetime") "datetime".

(** [type(obj)] *)
Definition type_of (obj : pyvalue) : pytype :=
  match obj with
  | VNone => NoneType_t
  | VBool _ => bool_t
  | VInt _ => int_t
  | VStr _ => str_t
  | VList _ => list_t
  | VDict _ => dict_t
  | VObj t _ => t
  | VOpaque t _ => t
  end.

(** [fullname(o)]: [str.__class__.__module__] is the module of [type],
    that is [builtins]. *)
Definition fullname (o : pytype) : string :=
  match ty_module o with
  | None => ty_name o
  | Some module =>
      if String.eqb module "builtins" then ty_name o
      else module ++ "." ++ ty_name o
  end.

(** [<class '...'>], as [f'{typ}'] prints a type. *)
Definition repr_type (o : pytype) : string :=
  "<class '" ++ fullname o ++ "'>".

(** ** Insertion-ordered dictionaries *)

Definition discriminator : string := "_serialized_type".

(** [key.startswith('_')] *)
Definition startswith_underscore (key : string) : bool :=
  String.prefix "_" key.

Fixpoint dict_get (d : pydict) (key : string) : option pyvalue :=
  match d with
  | [] => None
  | (k, v) :: rest => if String.eqb k key then Some v else dict_get rest key
  end.

(** [key in d] *)
Definition dict_mem (d : pydict) (key : string) : bool :=
  match dict_get d key with Some _ => true | None => false end.

(** [d[key] = v]: an existing key keeps its position, a new one goes last. *)
Fixpoint dict_set (d : pydict) (key : string) (v : pyvalue) : pydict :=
  match d with
  | [] => [(key, v)]
  | (k, w) :: rest =>
      if String.eqb k key then (k, v) :: rest
      else (k, w) :: dict_set rest key v
  end.

(** [del d[key]] on a present key. *)
Definition dict_del (d : pydict) (key : string) : pydict :=
  List.filter (fun kv => negb (String.eqb (fst kv) key)) d.

Definition dict_keys (d : pydict) : list string := map fst d.

(** [key in lst] for a list of names. *)
Definition name_in (key : string) (names : list string) : bool :=
  existsb (String.eqb key) names.

(** ** Classes and registries *)

(** A class, as far as reconstruction sees it: the names of
    [inspect.signature(cls.__init__).parameters] and the effect of
    a call of [cls] with keyword arguments. *)
Record pyclass := PyClass {
  cls_type : pytype;
  init_parameters : list string;
  construct : pydict -> result pyvalue
}.

Record SerializableTypeData := mkSerializableTypeData {
  cls : pyclass;
  transient_attributes : list string
}.

(** A registered serializer function receives the object itself, and a
    registered deserializer function the mapping itself: each returns its
    result (or raises) together with its argument as it leaves it.  A call of
    a class, in turn, is taken to leave its keyword arguments as they are,
    and values are trees: what a decoded instance shares with the mapping it
    was built from is not followed. *)
Abbreviation encoder := (pyvalue -> result pyvalue * pyvalue).

Abbreviation decoder := (pydict -> result pyvalue * pydict).

(** [Serializable.serializable_types], [Serializer.serializers] (keyed by the
    type object) and [Deserializer.deserializers] (keyed by [__name__]). *)
Record registries := mkRegistries {
  serializable_types : gmap string SerializableTypeData;
  serializers : gmap pytype encoder;
  deserializers : gmap string decoder
}.

(** [SerializableTypeData.__init__] and [register_serializable_type] *)
Definition new_SerializableTypeData (c : pyclass) (transient : option (list string))
  : SerializableTypeData :=
  match transient with
  | None => mkSerializableTypeData c []
  | Some names => mkSerializableTypeData c names
  end.

Definition register_serializable_type (R : registries) (c : pyclass)
    (transient : option (list string)) : registries :=
  let class_name := fullname (cls_type c) in
  mkRegistries (<[class_name := new_SerializableTypeData c transient]> (serializable_types R))
               (serializers R) (deserializers R).

(** [Serializable.__init_subclass__] *)
Definition init_subclass (R : registries) (c : pyclass)
    (transient : option (list string)) : registries :=
  register_serializable_type R c transient.

(** [Serializer.__init__]: the entry is written whatever was there. *)
Definition Serializer_init (R : registries) (function : encoder)
    (serialized_type : pytype) : registries :=
  mkRegistries (serializable_types R)
               (<[serialized_type := function]> (serializers R))
               (deserializers R).

(** [Deserializer.__init__]: a bare [raise] outside an [except] block is a
    [RuntimeError]. *)
Definition Deserializer_init (R : registries) (function : decoder)
    (deserialized_type_name : pytype) : result registries :=
  match deserializers R !! ty_name deserialized_type_name with
  | Some _ => Err (RuntimeError "No active exception to reraise")
  | None =>
      Ok (mkRegistries (serializable_types R) (serializers R)
            (<[ty_name deserialized_type_name := function]> (deserializers R)))
  end.

(** ** Encoding *)

(** [value[key] = v] *)
Definition setitem (value : pyvalue) (key : string) (v : pyvalue) : result pyvalue :=
  match value with
  | VDict d => Ok (VDict (dict_set d key v))
  | VList _ => Err (TypeError "list indices must be integers or slices, not str")
  | _ => Err (TypeError "object does not support item assignment")
  end.

(** [for key in to_remove: ignored_attributes[key] = getattr(obj, key);
    delattr(obj, key)], on the [__dict__] of [obj].  The keys of [__dict__]
    are taken to be names of attributes of the instance, as assignments to
    attributes make them, and not one of the names [__dict__], [__class__]
    and [__weakref__], which belong to the type. *)
Fixpoint remove_attributes (to_remove : list string)
    (ignored_attributes : pydict) (d : pydict) : result pydict * pydict :=
  match to_remove with
  | [] => (Ok ignored_attributes, d)
  | key :: rest =>
      match dict_get d key with
      | None => (Err (AttributeError key), d)
      | Some v =>
          remove_attributes rest (dict_set ignored_attributes key v) (dict_del d key)
      end
  end.

(** [for key, value in items: d[key] = value] *)
Definition dict_update (d : pydict) (items : pydict) : pydict :=
  fold_left (fun acc kv => dict_set acc (fst kv) (snd kv)) items d.

Definition unregistered_type (type_name : string) : exn :=
  TypeError ("Could not find registered serializable type with name: " ++ type_name).

Definition no_serializer (typ : pytype) : exn :=
  TypeError ("Could not find serializer for type: " ++ repr_type typ).

(** [Serializable.serialize_object]: the result, and [obj] as the call
    leaves it. *)
Definition serialize_object (R : registries) (obj : pyvalue)
    (serialize_private_attributes : bool) : result pyvalue * pyvalue :=
  let typ := type_of obj in
  match serializers R !! typ with
  | Some f =>
      let '(r, obj') := f obj in
      (let* value := r in setitem value discriminator (VStr (ty_name typ)), obj')
  | None =>
      match obj with
      | VObj _ d =>
          let type_name := fullname typ in
          match serializable_types R !! type_name with
          | None => (Err (unregistered_type type_name), obj)
          | Some type_data =>
              let '(r1, d1) :=
                if negb serialize_private_attributes
                then remove_attributes (List.filter startswith_underscore (dict_keys d)) [] d
                else (Ok [], d) in
              match r1 with
              | Err e => (Err e, VObj typ d1)
              | Ok ignored1 =>
                  let '(r2, d2) :=
                    match transient_attributes type_data with
                    | [] => (Ok ignored1, d1)
                    | transient =>
                        remove_attributes
                          (List.filter (fun key => name_in key transient) (dict_keys d1))
                          ignored1 d1
                    end in
                  match r2 with
                  | Err e => (Err e, VObj typ d2)
                  | Ok ignored_attributes =>
                      let d3 := dict_set d2 discriminator (VStr (fullname typ)) in
                      let result := dict_update [] d3 in
                      let d4 := dict_update d3 ignored_attributes in
                      (Ok (VDict result), VObj typ d4)
                  end
              end
          end
      | _ => (Err (no_serializer typ), obj)
      end
  end.

(** The elements of a list in turn, up to the first that raises. *)
Definition mapM {A B} (f : A -> result B) : list A -> result (list B) :=
  fix go l :=
    match l with
    | [] => Ok []
    | x :: rest => let* y := f x in let* ys := go rest in Ok (y :: ys)
    end.

(** [json.loads(json.dumps(obj, default=default))] on the tree of [obj]:
    scalars, lists and dictionaries are written and read back as they are,
    anything else goes through [default] and the value it returns is encoded
    in turn.  The fuel is the interpreter's recursion limit. *)
Fixpoint dumps_loads (default : pyvalue -> result pyvalue) (fuel : nat) (o : pyvalue)
  : result pyvalue :=
  match fuel with
  | 0 => Err RecursionError
  | S fuel =>
      match o with
      | VNone | VBool _ | VInt _ | VStr _ => Ok o
      | VList l =>
          let* l' := mapM (dumps_loads default fuel) l in Ok (VList l')
      | VDict d =>
          let* d' := mapM (fun kv => let* v := dumps_loads default fuel (snd kv) in
                                     Ok (fst kv, v)) d in
          Ok (VDict d')
      | VObj _ _ | VOpaque _ _ =>
          let* o' := default o in dumps_loads default fuel o'
      end
  end.

(** The [default=lambda o: ...] of [serialize]: the object that
    [serialize_object] leaves behind is not what [json.dumps] goes on with. *)
Definition default_hook (R : registries) (serialize_private_attributes : bool)
    (o : pyvalue) : result pyvalue :=
  fst (serialize_object R o serialize_private_attributes).

(** [serialize] *)
Definition serialize (fuel : nat) (R : registries) (obj : pyvalue)
    (serialize_private_attributes : bool) : result pyvalue :=
  dumps_loads (default_hook R serialize_private_attributes) fuel obj.

(** ** Decoding *)

(** [d[key]] on a registry, for a key that is any Python value: lists and
    dictionaries are unhashable, and no other non-string is a registered name. *)
Definition registry_get {A} (m : gmap string A) (key : pyvalue) : result (option A) :=
  match key with
  | VStr name => Ok (m !! name)
  | VList _ => Err (TypeError "unhashable type: 'list'")
  | VDict _ => Err (TypeError "unhashable type: 'dict'")
  | _ => Ok None
  end.

(** The key that a [KeyError] reports. *)
Definition key_text (key : pyvalue) : string :=
  match key with
  | VStr name => name
  | _ => "<key>"
  end.

(** [setattr(created_instance, attr_name, attr_value)], for a class that
    defines no descriptor and no [__setattr__] of its own.  Three names belong
    to the type and are not stored in the instance's [__dict__]: [__class__]
    takes a class, which none of the values here is; [__dict__] takes a
    [dict], which becomes the [__dict__] of the instance; [__weakref__] cannot
    be written.  Every other name is stored in [__dict__]. *)
Definition setattr (o : pyvalue) (attr_name : string) (attr_value : pyvalue)
  : result pyvalue :=
  if String.eqb attr_name "__class__"
  then Err (TypeError ("__class__ must be set to a class, not '"
                       ++ ty_name (type_of attr_value) ++ "' object"))
  else
    match o with
    | VObj t d =>
        if String.eqb attr_name "__dict__"
        then match attr_value with
             | VDict d' => Ok (VObj t d')
             | _ => Err (TypeError ("__dict__ must be set to a dictionary, not a '"
                                    ++ ty_name (type_of attr_value) ++ "'"))
             end
        else if String.eqb attr_name "__weakref__"
        then Err (AttributeError attr_name)
        else Ok (VObj t (dict_set d attr_name attr_value))
    | _ => Err (AttributeError attr_name)
    end.

Definition is_list (value : pyvalue) : bool :=
  match value with VList _ => true | _ => false end.

(** [type(value) == dict and '_serialized_type' in value] *)
Definition is_tagged_dict (value : pyvalue) : bool :=
  match value with VDict d => dict_mem d discriminator | _ => false end.

(** The loop of lines 119-121: the decoded fields that the constructor's
    signature does not name. *)
Fixpoint not_to_constructor (parameters : list string) (deserialized_dict : pydict)
    (candidates : list string) (attributes_not_to_constructor : pydict)
  : result pydict :=
  match candidates with
  | [] => Ok attributes_not_to_constructor
  | candidate :: rest =>
      if negb (name_in candidate parameters)
      then match dict_get deserialized_dict candidate with
           | None => Err (KeyError candidate)
           | Some v =>
               not_to_constructor parameters deserialized_dict rest
                 (dict_set attributes_not_to_constructor candidate v)
           end
      else not_to_constructor parameters deserialized_dict rest
             attributes_not_to_constructor
  end.

(** The loop of lines 123-125 ([print] aside). *)
Fixpoint remove_parameters (candidates : list string) (deserialized_dict : pydict)
  : result pydict :=
  match candidates with
  | [] => Ok deserialized_dict
  | candidate :: rest =>
      if dict_mem deserialized_dict candidate
      then remove_parameters rest (dict_del deserialized_dict candidate)
      else Err (KeyError candidate)
  end.

(** The loop of lines 128-129. *)
Fixpoint set_attributes (created_instance : pyvalue) (items : pydict)
  : result pyvalue :=
  match items with
  | [] => Ok created_instance
  | (attr_name, attr_value) :: rest =>
      let* o := setattr created_instance attr_name attr_value in
      set_attributes o rest
  end.

(** Lines 114-131: look the class up and build the instance. *)
Definition build_instance (R : registries) (class_name : pyvalue)
    (deserialized_dict : pydict) : result pyvalue :=
  let* entry := registry_get (serializable_types R) class_name in
  match entry with
  | None => Err (KeyError (key_text class_name))
  | Some type_data =>
      let cls := cls type_data in
      let* attributes_not_to_constructor :=
        not_to_constructor (init_parameters cls) deserialized_dict
          (dict_keys deserialized_dict) [] in
      let* deserialized_dict :=
        remove_parameters (dict_keys attributes_not_to_constructor)
          deserialized_dict in
      let* created_instance := construct cls deserialized_dict in
      set_attributes created_instance attributes_not_to_constructor
  end.

Section Decoding.
Context (R : registries) (deserialize_private_attributes : bool).

Section Open.
(** The recursive calls of [deserialize], which hand back the decoded
    value and the argument as they leave it. *)
Context (deserialize : pyvalue -> result pyvalue * pyvalue).

(** One turn of the loop of lines 102-112. *)
Definition deserialize_item (key : string) (value : pyvalue)
    (deserialized_dict : pydict) : result pydict * pyvalue :=
  if String.eqb key discriminator then (Ok deserialized_dict, value)
  else if negb deserialize_private_attributes && startswith_underscore key
  then (Ok deserialized_dict, value)
  else if is_list value || is_tagged_dict value
  then let '(r, value') := deserialize value in
       (let* x := r in Ok (dict_set deserialized_dict key x), value')
  else (Ok (dict_set deserialized_dict key value), value).

Definition deserialize_items : pydict -> pydict -> result pydict * pydict :=
  fix loop items deserialized_dict :=
    match items with
    | [] => (Ok deserialized_dict, [])
    | (key, value) :: rest =>
        let '(r, value') := deserialize_item key value deserialized_dict in
        match r with
        | Err e => (Err e, (key, value') :: rest)
        | Ok deserialized_dict =>
            let '(r', rest') := loop rest deserialized_dict in
            (r', (key, value') :: rest')
        end
    end.

Definition deserialize_dict_with (obj : pydict) : result pyvalue * pydict :=
  let by_descriptor :=
    let '(r, obj') := deserialize_items obj [] in
    (let* deserialized_dict := r in
     match dict_get obj' discriminator with
     | None => Err (KeyError discriminator)
     | Some class_name => build_instance R class_name deserialized_dict
     end, obj') in
  match dict_get obj discriminator with
  | None => by_descriptor
  | Some type_name =>
      match registry_get (deserializers R) type_name with
      | Err e => (Err e, obj)
      | Ok None => by_descriptor
      | Ok (Some f) =>
          let '(result, obj') := f (dict_del obj discriminator) in
          match result with
          | Err e => (Err e, obj')
          | Ok result => (Ok result, dict_set obj' discriminator type_name)
          end
      end
  end.

Definition deserialize_list_with : list pyvalue -> list pyvalue ->
    result (list pyvalue) * list pyvalue :=
  fix loop lst deserialized_list :=
    match lst with
    | [] => (Ok deserialized_list, [])
    | element :: rest =>
        let '(r, element') := deserialize element in
        match r with
        | Err e => (Err e, element' :: rest)
        | Ok x =>
            let '(r', rest') := loop rest (deserialized_list ++ [x]) in
            (r', element' :: rest')
        end
    end.
End Open.

(** [deserialize]: the decoded value, and [obj] as the call leaves it. *)
Fixpoint deserialize (obj : pyvalue) : result pyvalue * pyvalue :=
  match obj with
  | VList lst =>
      let '(r, lst') := deserialize_list_with deserialize lst [] in
      (let* l := r in Ok (VList l), VList lst')
  | VDict d =>
      let '(r, d') := deserialize_dict_with deserialize d in
      (r, VDict d')
  | _ => (Ok obj, obj)
  end.

Definition deserialize_dict (obj : pydict) : result pyvalue * pydict :=
  deserialize_dict_with deserialize obj.

Definition deserialize_list (lst : list pyvalue)
  : result (list pyvalue) * list pyvalue :=
  deserialize_list_with deserialize lst [].
End Decoding.

(** ** The codec the module registers for [datetime] *)

(** [serialize_datetime]; the registry only ever hands it a [datetime]. *)
Definition serialize_datetime : encoder := fun datetime_obj =>
  (match datetime_obj with
   | VOpaque _ text => Ok (VDict [("datetime", VStr text)])
   | _ => Err (Raised "serialize_datetime: not a datetime")
   end, datetime_obj).

(** [deserialize_datetime]: [datetime.fromisoformat] reads back the text that
    [__str__] wrote; the mapping is only read. *)
Definition deserialize_datetime : decoder := fun serialized_datetime =>
  (match dict_get serialized_datetime "datetime" with
   | None => Err (KeyError "datetime")
   | Some (VStr text) => Ok (VOpaque datetime_t text)
   | Some _ => Err (TypeError "fromisoformat: argument must be str")
   end, serialized_datetime).

Definition empty_registries : registries := mkRegistries ∅ ∅ ∅.

(** The registries once the module is imported (lines 211-218). *)
Definition module_registries : registries :=
  mkRegistries ∅ {[datetime_t := serialize_datetime]}
               {["datetime" := deserialize_datetime]}.

(** ** Vocabulary of the properties *)

(** [getattr(o, name)] on the instance's own attributes. *)
Definition getattr (o : pyvalue) (name : string) : option pyvalue :=
  match o with
  | VObj _ d => dict_get d name
  | _ => None
  end.


(** [kept] tells the attributes that [serialize_object] leaves on the object
    while it copies it; the others are deleted, recorded and put back. *)
Definition kept (serialize_private_attributes : bool) (transient : list string)
    (key : string) : bool :=
  (serialize_private_attributes || negb (startswith_underscore key))
  && negb (name_in key transient).

Definition kept_attributes (flag : bool) (transient : list string) (d : pydict)
  : pydict :=
  List.filter (fun kv => kept flag transient (fst kv)) d.

Definition ignored_attributes (flag : bool) (transient : list string) (d : pydict)
  : pydict :=
  dict_update
    (if flag then [] else List.filter (fun kv => startswith_underscore (fst kv)) d)
    (List.filter (fun kv => name_in (fst kv) transient)
       (if flag then d
        else List.filter (fun kv => negb (startswith_underscore (fst kv))) d)).

(** A key of the mapping that the loop of lines 102-112 decodes. *)
Definition decoded_key (deserialize_private_attributes : bool) (key : string) : bool :=
  negb (String.eqb key discriminator)
  && (deserialize_private_attributes || negb (startswith_underscore key)).

(** The names that [setattr] stores in the [__dict__] of an instance. *)
Definition stored_name (key : string) : bool :=
  negb (String.eqb key "__class__" || String.eqb key "__dict__"
        || String.eqb key "__weakref__").

(** The two parts into which [deserialize_dict] splits the decoded fields. *)
Definition constructor_fields (parameters : list string) (deserialized_dict : pydict)
  : pydict :=
  List.filter (fun kv => name_in (fst kv) parameters) deserialized_dict.

Definition extra_fields (parameters : list string) (deserialized_dict : pydict)
  : pydict :=
  List.filter (fun kv => negb (name_in (fst kv) parameters)) deserialized_dict.

(** ** Instances that decoding gives back

    [plain] values are made of scalars, lists and dictionaries only.  An
    attribute is [allowed] when neither side skips it: it is not the tag, it
    is kept by [serialize_object] and it is decoded by [deserialize_dict].
    [faithful] values are scalars, lists of faithful values, instances whose
    type has a registered serializer that returns a plain mapping from which
    the deserializer registered under the type's [__name__] gives the
    instance back, and instances of a registered serializable type (with no
    serializer for the type and no deserializer under its full name) whose
    attributes are allowed, hold faithful values or plain mappings without a
    tag, and are what the class makes of them: calling it with the
    attributes that its constructor names and assigning the others gives the
    instance. *)

Unset Elimination Schemes.
Inductive plain : pyvalue -> Prop :=
| plain_None : plain VNone
| plain_Bool b : plain (VBool b)
| plain_Int z : plain (VInt z)
| plain_Str s : plain (VStr s)
| plain_List l : Forall plain l -> plain (VList l)
| plain_Dict d : Forall (fun kv => plain (snd kv)) d -> plain (VDict d).
Set Elimination Schemes.

Definition is_instance (v : pyvalue) : bool :=
  match v with
  | VObj _ _ | VOpaque _ _ => true
  | _ => false
  end.

Definition untagged_mapping (v : pyvalue) : Prop :=
  exists d, v = VDict d /\ dict_get d discriminator = None.

Section Faithful.
Context (R : registries).
Context (serialize_private_attributes deserialize_private_attributes : bool).

Definition allowed (transient : list string) (key : string) : bool :=
  kept serialize_private_attributes transient key
  && decoded_key deserialize_private_attributes key.

Unset Elimination Schemes.
Inductive faithful : pyvalue -> Prop :=
| faithful_None : faithful VNone
| faithful_Bool b : faithful (VBool b)
| faithful_Int z : faithful (VInt z)
| faithful_Str s : faithful (VStr s)
| faithful_List l : Forall faithful l -> faithful (VList l)
| faithful_codec v (f : encoder) (g : decoder) d :
    is_instance v = true ->
    serializers R !! type_of v = Some f ->
    fst (f v) = Ok (VDict d) ->
    plain (VDict d) ->
    deserializers R !! ty_name (type_of v) = Some g ->
    fst (g (dict_del (dict_set d discriminator (VStr (ty_name (type_of v))))
              discriminator)) = Ok v ->
    faithful v
| faithful_instance t d type_data created_instance :
    serializers R !! t = None ->
    serializable_types R !! fullname t = Some type_data ->
    deserializers R !! fullname t = None ->
    List.NoDup (dict_keys d) ->
    Forall (fun kv =>
              allowed (transient_attributes type_data) (fst kv) = true /\
              (faithful (snd kv) \/
               (plain (snd kv) /\ untagged_mapping (snd kv)))) d ->
    construct (cls type_data)
      (constructor_fields (init_parameters (cls type_data)) d)
    = Ok created_instance ->
    set_attributes created_instance
      (extra_fields (init_parameters (cls type_data)) d)
    = Ok (VObj t d) ->
    faithful (VObj t d).
Set Elimination Schemes.
End Faithful.

(** The form of the representation of a faithful value, on which the loop
    over the fields of a mapping dispatches. *)
Definition encoded_shape (v j : pyvalue) : Prop :=
  match v with
  | VList _ => is_list j = true
  | VObj _ _ | VOpaque _ _ => is_tagged_dict j = true
  | VDict _ => False
  | _ => j = v
  end.

(** With [fuel], [serialize] returns a representation of [v] from which
    [deserialize] returns [v]. *)
Definition round_trips (R : registries) (fs fd : bool) (fuel : nat) (v : pyvalue)
  : Prop :=
  exists j, serialize fuel R v fs = Ok j /\
            fst (deserialize R fd j) = Ok v /\
            encoded_shape v j.

(** The same for an attribute [key] of an instance: its representation is
    decoded into the entry [key] of the decoded fields. *)
Definition field_round_trips (R : registries) (fs fd : bool) (fuel : nat)
    (kv : string * pyvalue) : Prop :=
  exists j, serialize fuel R (snd kv) fs = Ok j /\
            forall acc,
              fst (deserialize_item fd (deserialize R fd) (fst kv) j acc)
              = Ok (dict_set acc (fst kv) (snd kv)).

(** ** Sample classes, codecs and values *)

(** A call of a class whose [__init__(self, p1, ..., pn)] does
    [self.p1 = p1; ...; self.pn = pn]: no other keyword is accepted and every
    parameter is required. *)
Fixpoint store_arguments (parameters : list string) (kwargs : pydict)
    (self : pydict) : result pydict :=
  match parameters with
  | [] => Ok self
  | p :: rest =>
      match dict_get kwargs p with
      | None => Err (TypeError ("__init__() missing required argument: " ++ p))
      | Some v => store_arguments rest kwargs (dict_set self p v)
      end
  end.

Definition storing_init (t : pytype) (parameters : list string) (kwargs : pydict)
  : result pyvalue :=
  if forallb (fun key => name_in key parameters) (dict_keys kwargs)
  then let* self := store_arguments parameters kwargs [] in Ok (VObj t self)
  else Err (TypeError "__init__() got an unexpected keyword argument").

(** [class Point(Serializable)] with [__init__(self, x, y)], and
    [class Session(Serializable)] with [transient_attributes = ['_token']]
    and [__init__(self, user)], to whose instances other attributes are
    added afterwards; both of module [app] and both storing their
    arguments. *)
Definition Point_t := PyType 100 (Some "app") "Point".
Definition Session_t := PyType 101 (Some "app") "Session".

Definition Point : pyclass :=
  PyClass Point_t ["self"; "x"; "y"] (storing_init Point_t ["x"; "y"]).

Definition Session : pyclass :=
  PyClass Session_t ["self"; "user"] (storing_init Session_t ["user"]).

(** [class Temperature(Serializable)] of module [app], whose
    [__init__(self, celsius)] does [self.kelvin = celsius + 273]. *)
Definition Temperature_t := PyType 102 (Some "app") "Temperature".

Definition Temperature_init (kwargs : pydict) : result pyvalue :=
  if forallb (fun key => String.eqb key "celsius") (dict_keys kwargs)
  then match dict_get kwargs "celsius" with
       | Some (VInt celsius) =>
           Ok (VObj Temperature_t [("kelvin", VInt (celsius + 273))])
       | Some _ => Err (TypeError "unsupported operand type(s) for +")
       | None => Err (TypeError "__init__() missing required argument: celsius")
       end
  else Err (TypeError "__init__() got an unexpected keyword argument").

Definition Temperature : pyclass :=
  PyClass Temperature_t ["self"; "celsius"] Temperature_init.

(** A serializer registered for [Point] on top of its registration as a
    serializable type. *)
Definition serialize_point : encoder := fun point =>
  (match point with
   | VObj _ d =>
       match dict_get d "x", dict_get d "y" with
       | Some x, Some y => Ok (VDict [("xy", VList [x; y])])
       | _, _ => Err (AttributeError "x")
       end
   | _ => Err (AttributeError "x")
   end, point).

(** A deserializer for [Money] that takes what it reads out of the mapping:
    [return Money(serialized_money.pop('amount'))]. *)
Definition Money_t := PyType 103 (Some "app") "Money".

Definition deserialize_money : decoder := fun serialized_money =>
  (match dict_get serialized_money "amount" with
   | None => Err (KeyError "amount")
   | Some (VStr amount) => Ok (VOpaque Money_t amount)
   | Some _ => Err (TypeError "Money() argument must be str")
   end, dict_del serialized_money "amount").

(** The registries after the module, [Point] and [Session] are loaded; with
    [Temperature] as well; with the serializer for [Point]; with the
    deserializer for [Money]. *)
Definition app_registries : registries :=
  init_subclass (init_subclass module_registries Point None)
    Session (Some ["_token"]).

Definition lab_registries : registries :=
  init_subclass app_registries Temperature None.

Definition codec_registries : registries :=
  Serializer_init app_registries serialize_point Point_t.

Definition bank_registries : registries :=
  mkRegistries (serializable_types app_registries) (serializers app_registries)
               (<["Money" := deserialize_money]> (deserializers app_registries)).

Definition a_point : pyvalue := VObj Point_t [("x", VInt 1); ("y", VInt 2)].

Definition a_datetime : pyvalue := VOpaque datetime_t "2023-01-01 00:00:00".

Definition a_session : pyvalue :=
  VObj Session_t [("user", VStr "ann"); ("_token", VStr "s3cret"); ("_hits", VInt 7)].

(** A session whose attributes are a point, a list with a date and a plain
    mapping. *)
Definition a_visit : pyvalue :=
  VObj Session_t
    [("user", VStr "ann");
     ("where", a_point);
     ("when", VList [a_datetime; VNone]);
     ("notes", VDict [("lang", VStr "en")])].

(** A session one of whose attributes is a plain [dict] that holds a point. *)
Definition a_tour : pyvalue :=
  VObj Session_t [("user", VStr "ann"); ("stops", VDict [("first", a_point)])].

(** [Temperature(celsius=20)], whose only attribute is [kelvin]. *)
Definition a_temperature : pyvalue :=
  VObj Temperature_t [("kelvin", VInt 293)].

Definition a_tagged_datetime : pydict :=
  [("_serialized_type", VStr "datetime"); ("datetime", VStr "2023-01-01 00:00:00")].

Definition a_tagged_session : pydict :=
  [("user", VStr "ann"); ("hits", VInt 7); ("_serialized_type", VStr "app.Session")].

Definition a_tagged_temperature : pydict :=
  [("celsius", VInt 20); ("_serialized_type", VStr "app.Temperature")].

Definition a_tagged_money : pydict :=
  [("_serialized_type", VStr "Money"); ("amount", VStr "12.50")].

(** ** The decorators

    [@serializer(serialized_type=t)] and [@deserializer(deserialized_type_name=t)]
    bind the decorated name to a [Serializer] or [Deserializer] object that
    holds the function, which [__init__] has also put into the registry. *)

Record Serializer := mkSerializer { Serializer_function : encoder }.

Record Deserializer := mkDeserializer { Deserializer_function : decoder }.

(** [serializer(serialized_type)(function)] *)
Definition serializer (serialized_type : pytype) (R : registries)
    (function : encoder) : Serializer * registries :=
  (mkSerializer function, Serializer_init R function serialized_type).

(** [Serializer.__call__] *)
Definition Serializer_call (self : Serializer) (obj : pyvalue)
  : result pyvalue * pyvalue :=
  Serializer_function self obj.

(** [deserializer(deserialized_type_name)(function)] *)
Definition deserializer (deserialized_type_name : pytype) (R : registries)
    (function : decoder) : result (Deserializer * registries) :=
  let* R' := Deserializer_init R function deserialized_type_name in
  Ok (mkDeserializer function, R').

(** [Deserializer.__call__] *)
Definition Deserializer_call (self : Deserializer) (obj : pydict)
  : result pyvalue * pydict :=
  Deserializer_function self obj.

(** ** Vocabulary of the further properties *)

(** Values in which no [dict] occurs outside an instance. *)
Unset Elimination Schemes.
Inductive dictless : pyvalue -> Prop :=
| dictless_None : dictless VNone
| dictless_Bool b : dictless (VBool b)
| dictless_Int z : dictless (VInt z)
| dictless_Str s : dictless (VStr s)
| dictless_List l : Forall dictless l -> dictless (VList l)
| dictless_Obj t d : dictless (VObj t d)
| dictless_Opaque t s : dictless (VOpaque t s).
Set Elimination Schemes.

(** The entries of a mapping that decoding without private attributes looks
    at: the tag and the keys that do not start with an underscore. *)
Definition public_entries (obj : pydict) : pydict :=
  List.filter (fun kv => String.eqb (fst kv) discriminator
                         || negb (startswith_underscore (fst kv))) obj.

(** A second type called [datetime], of another module. *)
Definition other_datetime_t := PyType 104 (Some "app.clock") "datetime".

(** A serializer for [Money] that goes with [deserialize_money]. *)
Definition serialize_money : encoder := fun money =>
  (match money with
   | VOpaque _ amount => Ok (VDict [("amount", VStr amount)])
   | _ => Err (AttributeError "amount")
   end, money).

Definition a_money : pyvalue := VOpaque Money_t "12.50".


(** A class of no module whose [__name__] is [app.Point]: its full name is
    that of [Point]. *)
Definition Point_twin_t := PyType 105 None "app.Point".

Definition Point_twin : pyclass :=
  PyClass Point_twin_t ["self"] (storing_init Point_twin_t []).

Definition an_untagged_money : pydict := [("_serialized_type", VStr "Money")].




(** A tagged mapping for [Session] with a field called [__dict__], and one
    with a field called [__class__]. *)
Definition a_tagged_session_with_dict : pydict :=
  [("user", VStr "ann"); ("hits", VInt 7);
   ("__dict__", VDict [("x", VInt 1)]);
   ("_serialized_type", VStr "app.Session")].

Definition a_tagged_session_with_class : pydict :=
  [("user", VStr "ann"); ("__class__", VStr "app.Point");
   ("_serialized_type", VStr "app.Session")].

(** * Properties *)

(** ** Dictionaries *)

Create HintDb pydict.

(** Case analysis on a comparison of two keys, with the outcome as an
    equation between them. *)
Ltac key_cases k key :=
  let E := fresh "E" in
  destruct (String.eqb k key) eqn:E;
  [apply String.eqb_eq in E | apply String.eqb_neq in E].

Lemma dict_get_set_eq (d : pydict) key v : dict_get (dict_set d key v) key = Some v.
Proof.
  induction d as [|[k w] d IH]; simpl.
  - now rewrite String.eqb_refl.
  - destruct (String.eqb k key) eqn:E; simpl; rewrite E; auto.
Qed.

Lemma dict_get_set_ne (d : pydict) key key' v :
  key <> key' -> dict_get (dict_set d key v) key' = dict_get d key'.
Proof.
  intros Hne. induction d as [|[k w] d IH]; simpl.
  - apply String.eqb_neq in Hne. now rewrite Hne.
  - key_cases k key; simpl.
    + subst k. apply String.eqb_neq in Hne. now rewrite Hne.
    + now rewrite IH.
Qed.

Lemma dict_get_del_eq (d : pydict) key : dict_get (dict_del d key) key = None.
Proof.
  unfold dict_del. induction d as [|[k w] d IH]; simpl; auto.
  destruct (String.eqb k key) eqn:E; simpl; auto. now rewrite E.
Qed.

Lemma dict_get_del_ne (d : pydict) key key' :
  key <> key' -> dict_get (dict_del d key) key' = dict_get d key'.
Proof.
  intros Hne. unfold dict_del. induction d as [|[k w] d IH]; simpl; auto.
  key_cases k key; simpl.
  - subst k. apply String.eqb_neq in Hne. now rewrite Hne.
  - now rewrite IH.
Qed.

Lemma dict_get_None (d : pydict) key :
  dict_get d key = None <-> ~ In key (dict_keys d).
Proof.
  induction d as [|[k w] d IH]; simpl.
  - tauto.
  - key_cases k key.
    + split; [discriminate | intros H; destruct H; auto].
    + rewrite IH. tauto.
Qed.

Lemma dict_get_In (d : pydict) key v : dict_get d key = Some v -> In (key, v) d.
Proof.
  induction d as [|[k w] d IH]; simpl; [discriminate|].
  key_cases k key.
  - intros [= ->]. subst. now left.
  - auto.
Qed.

Lemma In_dict_get (d : pydict) key v :
  List.NoDup (dict_keys d) -> In (key, v) d -> dict_get d key = Some v.
Proof.
  induction d as [|[k w] d IH]; simpl; [tauto|].
  intros Hnd Hin. inversion Hnd as [|? ? Hk Hd]; subst.
  destruct Hin as [[= -> ->]|Hin].
  - now rewrite String.eqb_refl.
  - key_cases k key; auto.
    subst k. exfalso. apply Hk.
    change key with (fst (key, v)). now apply in_map.
Qed.

Lemma dict_keys_set (d : pydict) key v key' :
  In key' (dict_keys (dict_set d key v)) <-> key' = key \/ In key' (dict_keys d).
Proof.
  induction d as [|[k w] d IH]; simpl.
  - intuition.
  - key_cases k key; simpl.
    + subst. intuition.
    + rewrite IH. intuition.
Qed.

Lemma dict_keys_del (d : pydict) key key' :
  In key' (dict_keys (dict_del d key)) <-> key' <> key /\ In key' (dict_keys d).
Proof.
  unfold dict_del. induction d as [|[k w] d IH]; simpl.
  - tauto.
  - key_cases k key; simpl.
    + subst. rewrite IH. intuition congruence.
    + rewrite IH. intuition congruence.
Qed.

Lemma dict_set_fresh (d : pydict) key v :
  ~ In key (dict_keys d) -> dict_set d key v = d ++ [(key, v)].
Proof.
  induction d as [|[k w] d IH]; simpl; auto.
  intros Hn. key_cases k key.
  - tauto.
  - rewrite IH; auto.
Qed.

Lemma dict_set_NoDup (d : pydict) key v :
  List.NoDup (dict_keys d) -> List.NoDup (dict_keys (dict_set d key v)).
Proof.
  induction d as [|[k w] d IH]; simpl; intros Hnd.
  - constructor; [tauto | constructor].
  - inversion Hnd as [|? ? Hk Hd]; subst.
    key_cases k key; simpl.
    + now constructor.
    + constructor; auto. rewrite dict_keys_set. intuition.
Qed.

Lemma dict_del_NoDup (d : pydict) key :
  List.NoDup (dict_keys d) -> List.NoDup (dict_keys (dict_del d key)).
Proof.
  unfold dict_del. induction d as [|[k w] d IH]; simpl; intros Hnd; auto.
  inversion Hnd as [|? ? Hk Hd]; subst.
  destruct (String.eqb k key); simpl; auto.
  constructor; auto. intros Hin. apply Hk.
  apply (dict_keys_del d key k) in Hin. tauto.
Qed.

Lemma dict_del_absent (d : pydict) key :
  ~ In key (dict_keys d) -> dict_del d key = d.
Proof.
  unfold dict_del. induction d as [|[k w] d IH]; simpl; auto.
  intros Hn. key_cases k key; simpl.
  - tauto.
  - rewrite IH; auto.
Qed.

Lemma dict_update_app (d items1 items2 : pydict) :
  dict_update d (items1 ++ items2) = dict_update (dict_update d items1) items2.
Proof. unfold dict_update. apply fold_left_app. Qed.

Lemma dict_update_NoDup (d items : pydict) :
  List.NoDup (dict_keys d) -> List.NoDup (dict_keys (dict_update d items)).
Proof.
  revert d. induction items as [|[k v] items IH]; simpl; auto.
  intros d Hnd. apply IH. now apply dict_set_NoDup.
Qed.

#[local] Hint Resolve dict_set_NoDup dict_del_NoDup dict_update_NoDup : pydict.
#[local] Hint Constructors List.NoDup : pydict.

Lemma dict_update_fresh (d items : pydict) :
  List.NoDup (dict_keys (d ++ items)) -> dict_update d items = d ++ items.
Proof.
  revert d. induction items as [|[k v] items IH]; intros d Hnd; simpl.
  - now rewrite app_nil_r.
  - unfold dict_keys in Hnd. rewrite map_app in Hnd. simpl in Hnd.
    rewrite dict_set_fresh.
    + change (dict_update (d ++ [(k, v)]) items = d ++ (k, v) :: items).
      rewrite IH; rewrite <- app_assoc; auto.
      unfold dict_keys. rewrite map_app. simpl. auto.
    + apply List.NoDup_remove_2 in Hnd. intros Hin. apply Hnd.
      apply in_or_app. now left.
Qed.

Lemma dict_update_nil (d : pydict) :
  List.NoDup (dict_keys d) -> dict_update [] d = d.
Proof. intros. now apply (dict_update_fresh [] d). Qed.

Lemma dict_get_update_notin (d items : pydict) key :
  ~ In key (dict_keys items) -> dict_get (dict_update d items) key = dict_get d key.
Proof.
  revert d. induction items as [|[k v] items IH]; simpl; auto.
  intros d Hn.
  change (dict_get (dict_update (dict_set d k v) items) key = dict_get d key).
  rewrite IH by tauto. apply dict_get_set_ne. intros ->. tauto.
Qed.

Lemma dict_keys_update (d items : pydict) key :
  In key (dict_keys (dict_update d items)) <->
  In key (dict_keys d) \/ In key (dict_keys items).
Proof.
  revert d. induction items as [|[k v] items IH]; simpl; intros d.
  - tauto.
  - change (In key (dict_keys (dict_update (dict_set d k v) items)) <->
            In key (dict_keys d) \/ k = key \/ In key (dict_keys items)).
    rewrite IH, dict_keys_set. intuition.
Qed.

(** ** Registration *)

Lemma module_registries_registered :
  Deserializer_init (Serializer_init empty_registries serialize_datetime datetime_t)
    deserialize_datetime datetime_t = Ok module_registries.
Proof. reflexivity. Qed.





(** A first registration of a deserializer succeeds and is then the entry. *)
Lemma Deserializer_init_fresh R function t :
  deserializers R !! ty_name t = None ->
  exists R', Deserializer_init R function t = Ok R' /\
             deserializers R' !! ty_name t = Some function.
Proof.
  intros H. unfold Deserializer_init. rewrite H. eexists. split; [reflexivity|].
  simpl. apply lookup_insert_eq.
Qed.

(** ** Encoding: which path is taken *)

(** C8: a value whose type is neither in [Serializer.serializers] nor, by its
    full name, in [Serializable.serializable_types] makes [serialize_object]
    raise [TypeError], and the value is left as it was. *)
Theorem serialize_object_unknown_type
    (R : registries) (obj : pyvalue) (serialize_private_attributes : bool) :
  serializers R !! type_of obj = None ->
  serializable_types R !! fullname (type_of obj) = None ->
  exists msg,
    serialize_object R obj serialize_private_attributes = (Err (TypeError msg), obj).
Proof.
  intros Hs Ht. unfold serialize_object; cbv zeta. rewrite Hs.
  destruct obj; simpl in *; try (eexists; reflexivity).
  rewrite Ht. eexists; reflexivity.
Qed.

Lemma serialize_object_unknown_type_witness :
  exists msg,
    serialize_object module_registries a_point false = (Err (TypeError msg), a_point).
Proof.
  apply (serialize_object_unknown_type module_registries a_point false);
    reflexivity.
Defined.

(** The same failure reaches the caller of [serialize] for an instance. *)
Lemma serialize_unknown_type fuel R t d flag :
  serializers R !! t = None ->
  serializable_types R !! fullname t = None ->
  exists msg, serialize (S fuel) R (VObj t d) flag = Err (TypeError msg).
Proof.
  intros Hs Ht. unfold serialize. simpl dumps_loads.
  unfold default_hook, serialize_object; cbv zeta. simpl type_of.
  rewrite Hs, Ht. eexists. reflexivity.
Qed.

(** C4: when the type of a value is in [Serializer.serializers], and its full
    name is in [Serializable.serializable_types] as well, [serialize_object]
    calls the registered serializer and returns what it returns with
    [_serialized_type] set to the type's [__name__]; the value is left as
    the serializer leaves it, and the registered serializable types and the
    private flag play no part. *)
Theorem serializer_takes_precedence
    (R : registries) (obj : pyvalue) (serialize_private_attributes : bool)
    (f : encoder) (type_data : SerializableTypeData) :
  serializers R !! type_of obj = Some f ->
  serializable_types R !! fullname (type_of obj) = Some type_data ->
  serialize_object R obj serialize_private_attributes
  = (let* value := fst (f obj) in
     setitem value discriminator (VStr (ty_name (type_of obj))), snd (f obj)) /\
  (forall d obj', f obj = (Ok (VDict d), obj') ->
     serialize_object R obj serialize_private_attributes
     = (Ok (VDict (dict_set d discriminator (VStr (ty_name (type_of obj))))), obj')) /\
  (forall R' flag', serializers R' = serializers R ->
     serialize_object R' obj flag'
     = serialize_object R obj serialize_private_attributes).
Proof.
  intros Hs _. unfold serialize_object; cbv zeta. rewrite Hs.
  split; [|split].
  - now destruct (f obj).
  - intros d obj' Hf. now rewrite Hf.
  - intros R' flag' ->. now rewrite Hs.
Qed.

Lemma serializer_takes_precedence_witness :
  serialize_object codec_registries a_point false
  = (Ok (VDict [("xy", VList [VInt 1; VInt 2]); ("_serialized_type", VStr "Point")]),
     a_point).
Proof.
  refine (proj1 (proj2 (serializer_takes_precedence codec_registries a_point false
                          serialize_point (mkSerializableTypeData Point []) _ _))
            [("xy", VList [VInt 1; VInt 2])] a_point _); reflexivity.
Defined.

(** ** Decoding: the mapping that is passed in *)

Lemma deserialize_item_disc flag f value acc :
  deserialize_item flag f discriminator value acc = (Ok acc, value).
Proof. reflexivity. Qed.

Lemma deserialize_items_keys flag f items :
  forall acc r items',
    deserialize_items flag f items acc = (r, items') ->
    dict_keys items' = dict_keys items.
Proof.
  induction items as [|[key value] rest IH]; simpl; intros acc r items' H.
  - now inversion H.
  - destruct (deserialize_item flag f key value acc) as [[acc'|e] value'].
    + destruct (deserialize_items flag f rest acc') as [r' rest'] eqn:E.
      inversion H; subst. simpl. f_equal. eapply IH; eauto.
    + now inversion H.
Qed.

Lemma deserialize_items_disc flag f items :
  forall acc r items',
    deserialize_items flag f items acc = (r, items') ->
    dict_get items' discriminator = dict_get items discriminator.
Proof.
  induction items as [|[key value] rest IH]; simpl; intros acc r items' H.
  - now inversion H.
  - destruct (deserialize_item flag f key value acc) as [r0 value'] eqn:Ei.
    assert (Hv : String.eqb key discriminator = true -> value' = value).
    { intros Hk. unfold deserialize_item in Ei. rewrite Hk in Ei. now inversion Ei. }
    destruct r0 as [acc'|e].
    + destruct (deserialize_items flag f rest acc') as [r' rest'] eqn:E.
      inversion H; subst. simpl.
      destruct (String.eqb key discriminator) eqn:Ek.
      * now rewrite Hv.
      * eapply IH; eauto.
    + inversion H; subst. simpl.
      destruct (String.eqb key discriminator) eqn:Ek; [now rewrite Hv | reflexivity].
Qed.

(** Every mapping without [_serialized_type] makes [deserialize_dict] raise:
    the fields are decoded, and line 114 then indexes the missing key. *)
Lemma deserialize_dict_untagged_raises R flag (obj : pydict) :
  dict_get obj discriminator = None ->
  exists e obj', deserialize_dict R flag obj = (Err e, obj').
Proof.
  intros Hnone. unfold deserialize_dict, deserialize_dict_with. rewrite Hnone.
  destruct (deserialize_items flag (deserialize R flag) obj []) as [r obj'] eqn:E.
  apply deserialize_items_disc in E. rewrite E, Hnone.
  destruct r as [dd|e]; simpl; eauto.
Qed.

(** C3 fails on the code: [deserialize({'a': 1})] raises
    [KeyError('_serialized_type')] whatever is registered and whatever the
    private flag, instead of returning the mapping. *)
Theorem deserialize_untagged_mapping_raises (R : registries) (flag : bool) :
  deserialize R flag (VDict [("a", VInt 1)])
  = (Err (KeyError "_serialized_type"), VDict [("a", VInt 1)]).
Proof. destruct flag; reflexivity. Qed.

(** The same mapping as an element of a list, and as the value of a field of
    a tagged mapping: only the latter is accepted, and it is handed over as it
    is. *)
Lemma deserialize_untagged_in_list (R : registries) (flag : bool) :
  fst (deserialize R flag (VList [VDict [("a", VInt 1)]]))
  = Err (KeyError "_serialized_type").
Proof. destruct flag; reflexivity. Qed.

Lemma dict_del_Permutation (m : pydict) key v :
  List.NoDup (dict_keys m) -> dict_get m key = Some v ->
  Permutation m ((key, v) :: dict_del m key).
Proof.
  unfold dict_del. induction m as [|[k w] m IH]; simpl; [discriminate|].
  intros Hnd Hget. inversion Hnd as [|? ? Hk Hd]; subst.
  destruct (String.eqb k key) eqn:E; simpl.
  - apply String.eqb_eq in E. subst k. injection Hget as ->.
    fold (dict_del m key). rewrite dict_del_absent by assumption. reflexivity.
  - rewrite perm_swap. apply perm_skip. now apply IH.
Qed.

(** C10, amended: for a mapping [m] whose [_serialized_type] names a
    registered deserializer that returns and does not itself change the
    mapping it is given, [deserialize_dict] hands the deserializer [m]
    without the key, returns its result, and leaves [m] with the key set
    again to the value it had: every key is bound to the same value as
    before (the key itself has moved to the end of the mapping). *)
Theorem deserializer_path_restores_mapping
    (R : registries) (flag : bool) (m : pydict) (type_name : pyvalue)
    (f : decoder) (result : pyvalue) :
  dict_get m discriminator = Some type_name ->
  registry_get (deserializers R) type_name = Ok (Some f) ->
  f (dict_del m discriminator) = (Ok result, dict_del m discriminator) ->
  exists m',
    deserialize_dict R flag m = (Ok result, m') /\
    m' = dict_del m discriminator ++ [(discriminator, type_name)] /\
    (forall key, dict_get m' key = dict_get m key) /\
    (forall key, In key (dict_keys m') <-> In key (dict_keys m)) /\
    (List.NoDup (dict_keys m) -> Permutation m' m).
Proof.
  intros Hget Hreg Hf.
  exists (dict_set (dict_del m discriminator) discriminator type_name).
  assert (Hfresh : ~ In discriminator (dict_keys (dict_del m discriminator))).
  { rewrite dict_keys_del. tauto. }
  split; [|split; [|split; [|split]]].
  - unfold deserialize_dict, deserialize_dict_with.
    rewrite Hget, Hreg, Hf. reflexivity.
  - now apply dict_set_fresh.
  - intros key. destruct (String.eqb discriminator key) eqn:E.
    + apply String.eqb_eq in E. subst key. now rewrite dict_get_set_eq.
    + apply String.eqb_neq in E.
      rewrite dict_get_set_ne, dict_get_del_ne by assumption. reflexivity.
  - intros key. rewrite dict_keys_set, dict_keys_del.
    assert (In discriminator (dict_keys m)).
    { destruct (dict_get_None m discriminator) as [_ H].
      destruct (in_dec String.string_dec discriminator (dict_keys m)); auto.
      rewrite H in Hget by assumption. discriminate. }
    destruct (String.string_dec key discriminator); subst; intuition.
  - intros Hnd. rewrite dict_set_fresh by assumption.
    rewrite (dict_del_Permutation m discriminator type_name Hnd Hget) at 2.
    rewrite Permutation_app_comm. reflexivity.
Qed.

Lemma deserializer_path_restores_mapping_witness :
  exists m',
    deserialize_dict module_registries false a_tagged_datetime
    = (Ok a_datetime, m') /\
    forall key, dict_get m' key = dict_get a_tagged_datetime key.
Proof.
  destruct (deserializer_path_restores_mapping module_registries false
              a_tagged_datetime (VStr "datetime") deserialize_datetime a_datetime
              eq_refl eq_refl eq_refl) as (m' & H1 & _ & H2 & _).
  exists m'. split; assumption.
Defined.

(** ** Encoding by descriptor *)

Lemma dict_get_app_notin (pre d : pydict) key :
  ~ In key (dict_keys pre) -> dict_get (pre ++ d) key = dict_get d key.
Proof.
  induction pre as [|[k w] pre IH]; simpl; auto.
  intros Hn. destruct (String.eqb k key) eqn:E.
  - apply String.eqb_eq in E. tauto.
  - apply IH. tauto.
Qed.

Lemma dict_del_app (pre d : pydict) key :
  dict_del (pre ++ d) key = dict_del pre key ++ dict_del d key.
Proof. unfold dict_del. apply List.filter_app. Qed.

Lemma NoDup_keys_app_cons (pre d : pydict) k w :
  List.NoDup (dict_keys (pre ++ (k, w) :: d)) ->
  ~ In k (dict_keys pre) /\ ~ In k (dict_keys d) /\
  List.NoDup (dict_keys ((pre ++ [(k, w)]) ++ d)) /\
  List.NoDup (dict_keys (pre ++ d)).
Proof.
  intros Hnd. rewrite <- app_assoc. simpl. split; [|split; [|split]]; auto.
  - unfold dict_keys in Hnd. rewrite map_app in Hnd. simpl in Hnd.
    apply List.NoDup_remove_2 in Hnd. intros Hin. apply Hnd.
    apply in_or_app. now left.
  - unfold dict_keys in Hnd. rewrite map_app in Hnd. simpl in Hnd.
    apply List.NoDup_remove_2 in Hnd. intros Hin. apply Hnd.
    apply in_or_app. now right.
  - unfold dict_keys in *. rewrite map_app in *. simpl in Hnd.
    now apply List.NoDup_remove_1 in Hnd.
Qed.

(** The delete loop over the keys that satisfy [p] leaves the others in
    place and records the deleted ones in their order. *)
Lemma remove_attributes_filter (p : string -> bool) (d : pydict) :
  forall pre ign,
    List.NoDup (dict_keys (pre ++ d)) ->
    remove_attributes (List.filter p (dict_keys d)) ign (pre ++ d)
    = (Ok (dict_update ign (List.filter (fun kv => p (fst kv)) d)),
       pre ++ List.filter (fun kv => negb (p (fst kv))) d).
Proof.
  induction d as [|[k w] d IH]; intros pre ign Hnd; simpl.
  - reflexivity.
  - destruct (NoDup_keys_app_cons pre d k w Hnd) as (Hpre & Hd & Hnd1 & Hnd2).
    destruct (p k) eqn:Ep; simpl.
    + rewrite dict_get_app_notin by assumption. simpl. rewrite String.eqb_refl.
      rewrite dict_del_app. rewrite (dict_del_absent pre) by assumption.
      unfold dict_del at 1. simpl. rewrite String.eqb_refl. simpl.
      fold (dict_del d k). rewrite dict_del_absent by assumption.
      rewrite IH by assumption. reflexivity.
    + specialize (IH (pre ++ [(k, w)]) ign Hnd1).
      rewrite <- app_assoc in IH. simpl in IH. rewrite IH.
      now rewrite <- app_assoc.
Qed.

Lemma filter_keys_NoDup (p : string * pyvalue -> bool) (d : pydict) :
  List.NoDup (dict_keys d) -> List.NoDup (dict_keys (List.filter p d)).
Proof.
  induction d as [|[k w] d IH]; simpl; intros Hnd; auto.
  inversion Hnd as [|? ? Hk Hd]; subst.
  destruct (p (k, w)); simpl; auto. constructor; auto.
  intros Hin. apply Hk. unfold dict_keys in *.
  apply in_map_iff in Hin. destruct Hin as (kv & <- & Hin).
  apply List.filter_In in Hin. apply in_map. tauto.
Qed.

#[local] Hint Resolve filter_keys_NoDup : pydict.

Lemma filter_filter {A} (f g : A -> bool) (l : list A) :
  List.filter f (List.filter g l) = List.filter (fun x => g x && f x) l.
Proof.
  induction l as [|x l IH]; simpl; auto.
  destruct (g x); simpl; [destruct (f x)|]; now rewrite IH.
Qed.

(** [serialize_object] on an instance of a registered type with no
    registered serializer: the mapping it returns and the object it leaves. *)
Lemma serialize_object_by_descriptor R t d flag type_data :
  serializers R !! t = None ->
  serializable_types R !! fullname t = Some type_data ->
  List.NoDup (dict_keys d) ->
  let transient := transient_attributes type_data in
  let d3 := dict_set (kept_attributes flag transient d) discriminator
              (VStr (fullname t)) in
  serialize_object R (VObj t d) flag
  = (Ok (VDict d3), VObj t (dict_update d3 (ignored_attributes flag transient d))).
Proof.
  intros Hs Ht Hnd transient d3. unfold serialize_object; cbv zeta. simpl type_of.
  rewrite Hs, Ht.
  assert (Hres : forall (p : string * pyvalue -> bool) v,
             dict_update [] (dict_set (List.filter p d) discriminator v)
             = dict_set (List.filter p d) discriminator v).
  { intros p v. apply dict_update_nil. auto with pydict. }
  assert (Hempty : forall ign (d1 : pydict),
             remove_attributes
               (List.filter (fun key => name_in key []) (dict_keys d1)) ign d1
             = (Ok ign, d1)).
  { intros ign d1. replace (List.filter _ (dict_keys d1)) with (@nil string);
      [reflexivity|]. induction (dict_keys d1); simpl; auto. }
  assert (Hstep2 : forall (tr : list string) ign (d1 : pydict),
             List.NoDup (dict_keys d1) ->
             match tr with
             | [] => (Ok ign, d1)
             | s :: l =>
                 remove_attributes
                   (List.filter (fun key => name_in key (s :: l)) (dict_keys d1))
                   ign d1
             end
             = (Ok (dict_update ign
                      (List.filter (fun kv => name_in (fst kv) tr) d1)),
                List.filter (fun kv => negb (name_in (fst kv) tr)) d1)).
  { intros tr ign d1 Hnd1.
    pose proof (remove_attributes_filter (fun key => name_in key tr)
                  d1 [] ign Hnd1) as H. simpl app in H.
    destruct tr as [|a l]; [|exact H].
    rewrite Hempty in H. exact H. }
  destruct flag; simpl negb; cbv iota.
  - rewrite (Hstep2 (transient_attributes type_data) [] d Hnd).
    rewrite Hres. reflexivity.
  - pose proof (remove_attributes_filter startswith_underscore d [] [] Hnd) as H1.
    simpl app in H1. rewrite H1.
    rewrite dict_update_nil by auto with pydict.
    rewrite Hstep2 by auto with pydict.
    rewrite filter_filter, Hres. reflexivity.
Qed.

Lemma name_in_In key names : name_in key names = true <-> In key names.
Proof.
  unfold name_in. rewrite existsb_exists. split.
  - intros (x & Hin & E). apply String.eqb_eq in E. now subst.
  - intros Hin. exists key. split; [assumption | apply String.eqb_refl].
Qed.

Lemma dict_get_filter (p : string -> bool) (d : pydict) key :
  dict_get (List.filter (fun kv => p (fst kv)) d) key
  = if p key then dict_get d key else None.
Proof.
  induction d as [|[k w] d IH]; simpl.
  - now destruct (p key).
  - destruct (p k) eqn:Ep; simpl.
    + destruct (String.eqb k key) eqn:E; [|exact IH].
      apply String.eqb_eq in E. subst k. now rewrite Ep.
    + rewrite IH. destruct (String.eqb k key) eqn:E; [|reflexivity].
      apply String.eqb_eq in E. subst k. now rewrite Ep.
Qed.

Lemma dict_keys_filter (p : string -> bool) (d : pydict) key :
  In key (dict_keys (List.filter (fun kv => p (fst kv)) d)) <->
  p key = true /\ In key (dict_keys d).
Proof.
  unfold dict_keys. rewrite !in_map_iff. split.
  - intros ([k v] & <- & Hin). apply List.filter_In in Hin. simpl in *.
    split; [tauto|]. exists (k, v). tauto.
  - intros (Hp & [k v] & <- & Hin). exists (k, v). split; [reflexivity|].
    apply List.filter_In. simpl in *. tauto.
Qed.

Lemma dict_get_update (d items : pydict) key :
  List.NoDup (dict_keys items) ->
  dict_get (dict_update d items) key
  = match dict_get items key with Some v => Some v | None => dict_get d key end.
Proof.
  revert d. induction items as [|[k v] items IH]; simpl; intros d Hnd; auto.
  inversion Hnd as [|? ? Hk Hi]; subst.
  change (dict_update d ((k, v) :: items)) with (dict_update (dict_set d k v) items).
  rewrite IH by assumption.
  destruct (String.eqb k key) eqn:E.
  - apply String.eqb_eq in E. subst k.
    apply dict_get_None in Hk. rewrite Hk. apply dict_get_set_eq.
  - apply String.eqb_neq in E. now rewrite dict_get_set_ne.
Qed.


Lemma ignored_attributes_keys flag transient d key :
  In key (dict_keys (ignored_attributes flag transient d)) ->
  kept flag transient key = false /\ In key (dict_keys d).
Proof.
  unfold ignored_attributes, kept. rewrite dict_keys_update.
  destruct flag; simpl.
  - intros [[]|H].
    apply (dict_keys_filter (fun k => name_in k transient)) in H.
    destruct H as [-> H]. auto.
  - intros [H|H].
    + apply (dict_keys_filter startswith_underscore) in H.
      destruct H as [-> H]. auto.
    + apply (dict_keys_filter (fun k => name_in k transient)) in H.
      destruct H as [-> H].
      apply (dict_keys_filter (fun k => negb (startswith_underscore k))) in H.
      split; [apply andb_false_r | tauto].
Qed.


(** ** [serialize] on an instance *)




(** ** Field policies of the descriptor path *)







(** ** What encoding does to the object *)

(** C2 fails on the code: after [serialize_object] a registered [Point] with
    attributes [x] and [y] has a third attribute, [_serialized_type], which it
    did not have before the call. *)
Theorem serialize_object_leaves_tag_on_object :
  serialize_object app_registries a_point false
  = (Ok (VDict [("x", VInt 1); ("y", VInt 2);
                ("_serialized_type", VStr "app.Point")]),
     VObj Point_t [("x", VInt 1); ("y", VInt 2);
                   ("_serialized_type", VStr "app.Point")]) /\
  snd (serialize_object app_registries a_point false) <> a_point.
Proof. split; [reflexivity | discriminate]. Qed.

(** The attributes that were deleted come back at the end of [__dict__]. *)
Example serialize_object_reorders_attributes :
  snd (serialize_object app_registries a_session false)
  = VObj Session_t [("user", VStr "ann"); ("_serialized_type", VStr "app.Session");
                    ("_token", VStr "s3cret"); ("_hits", VInt 7)].
Proof. reflexivity. Qed.

(** In general: an instance without an attribute [_serialized_type] has one
    after the call. *)
Lemma serialize_object_adds_tag R t d flag type_data :
  serializers R !! t = None ->
  serializable_types R !! fullname t = Some type_data ->
  List.NoDup (dict_keys d) ->
  dict_get d discriminator = None ->
  exists result d',
    serialize_object R (VObj t d) flag = (Ok result, VObj t d') /\
    dict_get d' discriminator = Some (VStr (fullname t)).
Proof.
  intros Hs Ht Hnd Hnone. eexists _, _. split.
  - apply (serialize_object_by_descriptor R t d flag type_data); assumption.
  - cbv zeta. rewrite dict_get_update_notin.
    + apply dict_get_set_eq.
    + intros Hin. apply ignored_attributes_keys in Hin.
      apply dict_get_None in Hnone. tauto.
Qed.










(** ** Decoding by descriptor *)

Lemma deserialize_item_key flag f key value acc r value' :
  deserialize_item flag f key value acc = (r, value') ->
  forall acc', r = Ok acc' ->
    if decoded_key flag key
    then exists x, acc' = dict_set acc key x
    else acc' = acc.
Proof.
  unfold deserialize_item, decoded_key. intros H acc' ->.
  destruct (String.eqb key discriminator); simpl.
  - now inversion H.
  - destruct flag; simpl in *.
    + destruct (is_list value || is_tagged_dict value).
      * destruct (f value) as [[x|e] v']; simpl in H; inversion H. eauto.
      * inversion H. eauto.
    + destruct (startswith_underscore key); simpl in *.
      * now inversion H.
      * destruct (is_list value || is_tagged_dict value).
        -- destruct (f value) as [[x|e] v']; simpl in H; inversion H. eauto.
        -- inversion H. eauto.
Qed.

(** The decoded fields are one entry for each key that the loop does not
    skip, and nothing else. *)
Lemma deserialize_items_decoded flag f items :
  forall acc dd items',
    deserialize_items flag f items acc = (Ok dd, items') ->
    (List.NoDup (dict_keys acc) -> List.NoDup (dict_keys dd)) /\
    forall key, In key (dict_keys dd) <->
                In key (dict_keys acc) \/
                (In key (dict_keys items) /\ decoded_key flag key = true).
Proof.
  induction items as [|[key value] rest IH]; simpl; intros acc dd items' H.
  - inversion H; subst. split; [auto | intuition].
  - destruct (deserialize_item flag f key value acc) as [r0 value'] eqn:Ei.
    destruct r0 as [acc'|e]; [|discriminate].
    destruct (deserialize_items flag f rest acc') as [r' rest'] eqn:E.
    inversion H; subst.
    destruct (IH _ _ _ E) as [IHnd IHkeys].
    pose proof (deserialize_item_key _ _ _ _ _ _ _ Ei acc' eq_refl) as Hk.
    destruct (decoded_key flag key) eqn:Edk.
    + destruct Hk as [x ->]. split.
      * intros Hnd. apply IHnd. now apply dict_set_NoDup.
      * intros k. rewrite IHkeys, dict_keys_set.
        split; [|intuition (subst; auto)].
        intros [[->|H']|[H1 H2]]; auto.
    + subst acc'. split; [assumption|].
      intros k. rewrite IHkeys. split; [intuition|].
      intros [H'|[[<-|H1] H2]]; auto. congruence.
Qed.

Lemma not_to_constructor_filter parameters (dd : pydict) (items : pydict) :
  forall acc,
    (forall key v, In (key, v) items -> dict_get dd key = Some v) ->
    not_to_constructor parameters dd (dict_keys items) acc
    = Ok (dict_update acc (extra_fields parameters items)).
Proof.
  induction items as [|[k v] items IH]; simpl; intros acc Hget.
  - reflexivity.
  - destruct (name_in k parameters); simpl.
    + apply IH. intros; apply Hget; auto.
    + rewrite (Hget k v) by auto. rewrite IH by (intros; apply Hget; auto).
      reflexivity.
Qed.

Lemma dict_mem_In (d : pydict) key : dict_mem d key = true <-> In key (dict_keys d).
Proof.
  unfold dict_mem. pose proof (dict_get_None d key) as H.
  destruct (dict_get d key).
  - split; [|reflexivity]. intros _.
    destruct (in_dec String.string_dec key (dict_keys d)) as [|Hn]; auto.
    apply H in Hn. discriminate.
  - split; [discriminate|]. intros Hin. exfalso. now apply H.
Qed.

Lemma remove_parameters_filter (candidates : list string) :
  forall d : pydict,
    List.NoDup candidates ->
    (forall key, In key candidates -> In key (dict_keys d)) ->
    remove_parameters candidates d
    = Ok (List.filter (fun kv => negb (name_in (fst kv) candidates)) d).
Proof.
  induction candidates as [|c rest IH]; simpl; intros d Hnd Hin.
  - f_equal. clear. induction d as [|kv d IHd]; simpl; [reflexivity | now f_equal].
  - inversion Hnd as [|? ? Hc Hrest]; subst.
    assert (Hm : dict_mem d c = true) by (apply dict_mem_In, Hin; now left).
    rewrite Hm, IH; auto.
    + unfold dict_del. rewrite filter_filter. f_equal.
      apply List.filter_ext. intros [k v]. simpl. now rewrite negb_orb.
    + intros key Hk. apply dict_keys_del. split; [|apply Hin; auto].
      intros ->. tauto.
Qed.

Lemma setattr_stored t (d : pydict) key v :
  stored_name key = true ->
  setattr (VObj t d) key v = Ok (VObj t (dict_set d key v)).
Proof.
  unfold stored_name, setattr. intros H.
  apply negb_true_iff in H. apply orb_false_elim in H. destruct H as [H Hw].
  apply orb_false_elim in H. destruct H as [Hc Hd].
  now rewrite Hc, Hd, Hw.
Qed.

(** A name that does not start with an underscore is stored in [__dict__],
    and so is every key that the field loop decodes without
    [deserialize_private_attributes]. *)
Lemma public_name_stored key :
  startswith_underscore key = false -> stored_name key = true.
Proof.
  unfold stored_name. intros H.
  key_cases key "__class__"; [subst; discriminate|].
  key_cases key "__dict__"; [subst; discriminate|].
  key_cases key "__weakref__"; [subst; discriminate|].
  reflexivity.
Qed.

Lemma decoded_key_stored key :
  decoded_key false key = true -> stored_name key = true.
Proof.
  unfold decoded_key. intros H. apply andb_prop in H. destruct H as [_ H].
  simpl in H. apply public_name_stored. now apply negb_true_iff.
Qed.

Lemma set_attributes_instance t (items : pydict) :
  Forall (fun kv => stored_name (fst kv) = true) items ->
  forall d, set_attributes (VObj t d) items = Ok (VObj t (dict_update d items)).
Proof.
  induction 1 as [|[k v] items Hk _ IH]; simpl; intros d; [reflexivity|].
  rewrite setattr_stored by exact Hk. apply IH.
Qed.

(** Lines 114-131 split the decoded fields by the constructor's signature,
    call the constructor on one part and assign the other. *)
Lemma build_instance_split R class_name type_data (dd : pydict) :
  serializable_types R !! class_name = Some type_data ->
  List.NoDup (dict_keys dd) ->
  build_instance R (VStr class_name) dd
  = (let parameters := init_parameters (cls type_data) in
     let* created_instance :=
       construct (cls type_data) (constructor_fields parameters dd) in
     set_attributes created_instance (extra_fields parameters dd)).
Proof.
  intros Ht Hnd. unfold build_instance. simpl. rewrite Ht. cbv zeta.
  rewrite not_to_constructor_filter by (intros; now apply In_dict_get).
  simpl bind.
  assert (Hex : dict_update [] (extra_fields (init_parameters (cls type_data)) dd)
                = extra_fields (init_parameters (cls type_data)) dd).
  { apply dict_update_nil. unfold extra_fields. auto with pydict. }
  rewrite Hex.
  rewrite remove_parameters_filter.
  - simpl bind.
    replace (List.filter _ dd)
      with (constructor_fields (init_parameters (cls type_data)) dd);
      [reflexivity|].
    unfold constructor_fields. apply List.filter_ext_in. intros [k v] Hin. simpl.
    destruct (name_in k (init_parameters (cls type_data))) eqn:Ep.
    + destruct (name_in k (dict_keys (extra_fields _ dd))) eqn:E; [|reflexivity].
      apply name_in_In in E.
      apply (dict_keys_filter (fun k => negb (name_in k _))) in E.
      rewrite Ep in E. destruct E; discriminate.
    + symmetry. apply negb_false_iff, name_in_In.
      apply (dict_keys_filter (fun k => negb (name_in k _))).
      rewrite Ep. split; [reflexivity|].
      change k with (fst (k, v)). now apply in_map.
  - now apply filter_keys_NoDup.
  - intros key Hk.
    apply (dict_keys_filter (fun k => negb (name_in k _))) in Hk. tauto.
Qed.

Lemma filter_split_Permutation {A} (p : A -> bool) (l : list A) :
  Permutation l (List.filter p l ++ List.filter (fun x => negb (p x)) l).
Proof.
  induction l as [|x l IH]; simpl; [constructor|].
  destruct (p x); simpl.
  - now constructor.
  - now apply Permutation_cons_app.
Qed.

Lemma set_attributes_other (o : pyvalue) (items : pydict) r :
  (forall t d, o <> VObj t d) ->
  set_attributes o items = Ok r -> items = [] /\ r = o.
Proof.
  intros Hno. destruct items as [|[k v] items]; simpl.
  - intros [= <-]. auto.
  - unfold setattr. destruct (String.eqb k "__class__"); [discriminate|].
    destruct o; simpl; try discriminate. exfalso. eapply Hno; reflexivity.
Qed.

(** The attributes that are assigned after construction are on the result,
    and they replace no attribute that the constructor set under the name of
    one of its own parameters, when each is assigned under a name that
    [setattr] stores. *)
Lemma set_attributes_getattr parameters (dd : pydict) created_instance instance :
  List.NoDup (dict_keys dd) ->
  Forall (fun kv => stored_name (fst kv) = true) (extra_fields parameters dd) ->
  set_attributes created_instance (extra_fields parameters dd) = Ok instance ->
  (forall key v, In (key, v) (extra_fields parameters dd) ->
                 getattr instance key = Some v) /\
  (forall key v, In (key, v) (constructor_fields parameters dd) ->
                 getattr created_instance key = Some v ->
                 getattr instance key = Some v).
Proof.
  intros Hnd Hst Hset.
  assert (Hex : List.NoDup (dict_keys (extra_fields parameters dd)))
    by (now apply filter_keys_NoDup).
  destruct created_instance as [| | | | | |t a|];
    try (apply set_attributes_other in Hset; [|discriminate];
         destruct Hset as [-> ->]; split; [intros ? ? []|auto]).
  rewrite set_attributes_instance in Hset by exact Hst.
  injection Hset as <-. simpl.
  split.
  - intros key v Hin. rewrite dict_get_update by assumption.
    now rewrite (In_dict_get _ _ _ Hex Hin).
  - intros key v Hin Hget. rewrite dict_get_update by assumption.
    unfold extra_fields.
    rewrite (dict_get_filter (fun k => negb (name_in k parameters))).
    apply List.filter_In in Hin. simpl in Hin. destruct Hin as [_ ->].
    exact Hget.
Qed.

(** The descriptor path of [deserialize_dict], with its loops read as a
    split of the decoded fields. *)
Lemma deserialize_dict_by_descriptor R flag (obj : pydict) class_name type_data :
  dict_get obj discriminator = Some (VStr class_name) ->
  deserializers R !! class_name = None ->
  serializable_types R !! class_name = Some type_data ->
  let parameters := init_parameters (cls type_data) in
  let decoded := deserialize_items flag (deserialize R flag) obj [] in
  deserialize_dict R flag obj
  = (let* dd := fst decoded in
     let* created_instance :=
       construct (cls type_data) (constructor_fields parameters dd) in
     set_attributes created_instance (extra_fields parameters dd),
     snd decoded).
Proof.
  intros Hget Hdec Hreg parameters decoded.
  unfold deserialize_dict, deserialize_dict_with. rewrite Hget. simpl.
  rewrite Hdec. subst decoded.
  destruct (deserialize_items flag (deserialize R flag) obj []) as [r obj'] eqn:E.
  simpl. f_equal. destruct r as [dd|e]; [|reflexivity]. simpl.
  rewrite (deserialize_items_disc _ _ _ _ _ _ E), Hget.
  destruct (deserialize_items_decoded _ _ _ _ _ _ E) as [Hnd _].
  apply (build_instance_split R class_name type_data dd Hreg).
  apply Hnd. constructor.
Qed.

(** C5, amended: for a mapping whose [_serialized_type] names a registered
    serializable type and no registered deserializer, [deserialize_dict]
    decodes the fields, calls the class with the decoded fields that its
    constructor's signature names, assigns every other decoded field onto the
    instance with [setattr], in the order of the mapping, and returns it.
    When it returns, the two parts are a partition of the decoded fields (one
    for each key of the mapping that is not skipped).  When no decoded field
    is named [__dict__], [__class__] or [__weakref__], as is the case
    whenever [deserialize_private_attributes] is off, every assigned field is
    an attribute of the result, and so is every field that the constructor
    stored under its own name. *)
Theorem descriptor_path_builds_instance
    (R : registries) (flag : bool) (obj : pydict) (class_name : string)
    (type_data : SerializableTypeData) :
  dict_get obj discriminator = Some (VStr class_name) ->
  deserializers R !! class_name = None ->
  serializable_types R !! class_name = Some type_data ->
  let parameters := init_parameters (cls type_data) in
  let decoded := deserialize_items flag (deserialize R flag) obj [] in
  fst (deserialize_dict R flag obj)
  = (let* dd := fst decoded in
     let* created_instance :=
       construct (cls type_data) (constructor_fields parameters dd) in
     set_attributes created_instance (extra_fields parameters dd)) /\
  forall instance,
    fst (deserialize_dict R flag obj) = Ok instance ->
    exists dd created_instance,
      fst decoded = Ok dd /\
      (forall key, In key (dict_keys dd) <->
                   In key (dict_keys obj) /\ decoded_key flag key = true) /\
      Permutation dd (constructor_fields parameters dd ++ extra_fields parameters dd) /\
      construct (cls type_data) (constructor_fields parameters dd)
      = Ok created_instance /\
      set_attributes created_instance (extra_fields parameters dd) = Ok instance /\
      (flag = false \/ Forall (fun kv => stored_name (fst kv) = true) dd ->
       (forall key v, In (key, v) (extra_fields parameters dd) ->
                      getattr instance key = Some v) /\
       (forall key v, In (key, v) (constructor_fields parameters dd) ->
                      getattr created_instance key = Some v ->
                      getattr instance key = Some v)).
Proof.
  intros Hget Hdec Hreg parameters decoded.
  pose proof (deserialize_dict_by_descriptor R flag obj class_name type_data
                Hget Hdec Hreg) as Heq.
  fold parameters in Heq. fold decoded in Heq.
  apply (f_equal fst) in Heq. simpl fst in Heq.
  split; [exact Heq|].
  intros instance Hok. rewrite Heq in Hok.
  destruct decoded as [[dd|e] obj'] eqn:E; [|discriminate]. simpl in Hok.
  destruct (construct (cls type_data) (constructor_fields parameters dd))
    as [created_instance|e] eqn:Ec; [|discriminate]. simpl in Hok.
  destruct (deserialize_items_decoded _ _ _ _ _ _ E) as [Hnd Hkeys].
  specialize (Hnd ltac:(constructor)).
  exists dd, created_instance.
  split; [reflexivity|]. split; [|split; [|split; [|split]]]; auto.
  - intros key. rewrite Hkeys. simpl. tauto.
  - apply filter_split_Permutation.
  - intros Hst. apply set_attributes_getattr; [exact Hnd| |exact Hok].
    apply List.Forall_forall. intros [key v] Hin. simpl.
    apply List.filter_In in Hin. destruct Hin as [Hin _].
    destruct Hst as [->|Hst].
    + apply (in_map fst) in Hin. apply Hkeys in Hin. simpl in Hin.
      destruct Hin as [[]|[_ Hin]]. now apply decoded_key_stored.
    + rewrite List.Forall_forall in Hst. exact (Hst _ Hin).
Qed.

Lemma descriptor_path_builds_instance_witness :
  fst (deserialize_dict app_registries false a_tagged_session)
  = Ok (VObj Session_t [("user", VStr "ann"); ("hits", VInt 7)]) /\
  construct Session [("user", VStr "ann")]
  = Ok (VObj Session_t [("user", VStr "ann")]).
Proof.
  destruct (descriptor_path_builds_instance app_registries false a_tagged_session
              "app.Session" (mkSerializableTypeData Session ["_token"])
              eq_refl eq_refl eq_refl) as [Heq _].
  split; [now rewrite Heq | reflexivity].
Defined.

(** ** Round trip *)

(** Induction on values, with the hypothesis for every element of a list and
    every value of a dictionary. *)
Lemma pyvalue_ind (P : pyvalue -> Prop) :
  P VNone ->
  (forall b, P (VBool b)) ->
  (forall z, P (VInt z)) ->
  (forall s, P (VStr s)) ->
  (forall l, Forall P l -> P (VList l)) ->
  (forall d, Forall (fun kv => P (snd kv)) d -> P (VDict d)) ->
  (forall t d, Forall (fun kv => P (snd kv)) d -> P (VObj t d)) ->
  (forall t s, P (VOpaque t s)) ->
  forall v, P v.
Proof.
  intros HNone HBool HInt HStr HList HDict HObj HOpaque.
  fix IH 1. intros v. destruct v as [| | | |l|d|t d|t s].
  - exact HNone.
  - apply HBool.
  - apply HInt.
  - apply HStr.
  - apply HList. revert l. fix IHl 1. intros [|x l]; constructor.
    + apply IH.
    + apply IHl.
  - apply HDict. revert d. fix IHd 1. intros [|[k x] d]; constructor.
    + apply IH.
    + apply IHd.
  - apply HObj. revert d. fix IHd 1. intros [|[k x] d]; constructor.
    + apply IH.
    + apply IHd.
  - apply HOpaque.
Qed.

Lemma deserialize_VList R flag l :
  fst (deserialize R flag (VList l))
  = (let* l' := fst (deserialize_list R flag l) in Ok (VList l')).
Proof.
  simpl. unfold deserialize_list.
  now destruct (deserialize_list_with (deserialize R flag) l []).
Qed.

Lemma deserialize_VDict R flag d :
  fst (deserialize R flag (VDict d)) = fst (deserialize_dict R flag d).
Proof.
  simpl. unfold deserialize_dict.
  now destruct (deserialize_dict_with R flag (deserialize R flag) d).
Qed.

Lemma mapM_app {A B} (f : A -> result B) (l1 l2 : list A) :
  mapM f (l1 ++ l2)
  = (let* r1 := mapM f l1 in let* r2 := mapM f l2 in Ok (r1 ++ r2)).
Proof.
  induction l1 as [|x l1 IH]; simpl.
  - now destruct (mapM f l2).
  - destruct (f x); simpl; [|reflexivity]. rewrite IH.
    destruct (mapM f l1); simpl; [|reflexivity].
    now destruct (mapM f l2).
Qed.

Lemma mapM_id {A} (f : A -> result A) (l : list A) :
  Forall (fun x => f x = Ok x) l -> mapM f l = Ok l.
Proof.
  induction 1 as [|x l Hx _ IH]; simpl; [reflexivity|].
  now rewrite Hx, IH.
Qed.

(** A bound for each element of a list gives one bound for the list. *)
Lemma Forall_bound {A} (P : nat -> A -> Prop) (l : list A) :
  Forall (fun x => exists n, forall m, n <= m -> P m x) l ->
  exists n, forall m, n <= m -> Forall (P m) l.
Proof.
  induction 1 as [|x l [n Hn] _ [n' Hn']].
  - exists 0. constructor.
  - exists (Nat.max n n'). intros m Hm. constructor.
    + apply Hn. lia.
    + apply Hn'. lia.
Qed.

Lemma mapM_Forall2 {A B} (f : A -> result B) (Q : A -> B -> Prop) (l : list A) :
  Forall (fun x => exists y, f x = Ok y /\ Q x y) l ->
  exists ys, mapM f l = Ok ys /\ Forall2 Q l ys.
Proof.
  induction 1 as [|x l (y & Hy & HQ) _ (ys & Hys & IH)]; simpl.
  - exists []. split; [reflexivity | constructor].
  - exists (y :: ys). rewrite Hy, Hys. split; [reflexivity | now constructor].
Qed.

Lemma filter_all {A} (p : A -> bool) (l : list A) :
  Forall (fun x => p x = true) l -> List.filter p l = l.
Proof.
  induction 1 as [|x l Hx _ IH]; simpl; [reflexivity|]. now rewrite Hx, IH.
Qed.

Lemma plain_dict_set (d : pydict) key v :
  plain (VDict d) -> plain v -> plain (VDict (dict_set d key v)).
Proof.
  intros Hd Hv. inversion Hd as [| | | | |d' Hall]; subst. constructor.
  clear Hd. induction Hall as [|[k w] d Hw Hall IH]; simpl.
  - constructor; [assumption | constructor].
  - destruct (String.eqb k key); constructor; auto.
Qed.

Section RoundTrip.
Context (R : registries) (fs fd : bool).

(** Plain values are written and read back as they are. *)
Lemma plain_dumps_loads v :
  plain v -> exists n, forall m, n <= m -> serialize m R v fs = Ok v.
Proof.
  unfold serialize.
  induction v as [| | | |l IH|d IH|t d IH|t s] using pyvalue_ind;
    intros Hp; inversion Hp; subst;
    try (exists 1; intros [|m] Hm; [lia | reflexivity]).
  - assert (Hall : Forall (fun x => exists n, forall m, n <= m ->
               dumps_loads (default_hook R fs) m x = Ok x) l).
    { rewrite Forall_forall in *. auto. }
    apply Forall_bound in Hall. destruct Hall as [n Hn].
    exists (S n). intros [|m] Hm; [lia|]. simpl.
    rewrite mapM_id; [reflexivity|]. apply Hn. lia.
  - assert (Hall : Forall (fun kv => exists n, forall m, n <= m ->
               dumps_loads (default_hook R fs) m (snd kv) = Ok (snd kv)) d).
    { rewrite Forall_forall in *. auto. }
    apply Forall_bound in Hall. destruct Hall as [n Hn].
    exists (S n). intros [|m] Hm; [lia|]. simpl.
    rewrite mapM_id; [reflexivity|].
    specialize (Hn m ltac:(lia)).
    eapply List.Forall_impl; [|exact Hn].
    intros [k x] Hx. simpl in *. now rewrite Hx.
Qed.

Lemma deserialize_list_elements (l js : list pyvalue) :
  Forall2 (fun x j => fst (deserialize R fd j) = Ok x) l js ->
  forall acc,
    fst (deserialize_list_with (deserialize R fd) js acc) = Ok (acc ++ l).
Proof.
  induction 1 as [|x j l js Hj _ IH]; intros acc; simpl.
  - now rewrite app_nil_r.
  - destruct (deserialize R fd j) as [r j']. simpl in Hj. subst r.
    specialize (IH (acc ++ [x])).
    destruct (deserialize_list_with (deserialize R fd) js (acc ++ [x]))
      as [r' rest']. simpl in *. now rewrite IH, <- app_assoc.
Qed.

(** The loop over the fields, on representations that decode one by one. *)
Lemma deserialize_items_fields (d js : pydict) :
  Forall2 (fun kv kj =>
             fst kj = fst kv /\
             forall acc,
               fst (deserialize_item fd (deserialize R fd) (fst kv) (snd kj) acc)
               = Ok (dict_set acc (fst kv) (snd kv))) d js ->
  forall acc tail,
    fst (deserialize_items fd (deserialize R fd) (js ++ tail) acc)
    = fst (deserialize_items fd (deserialize R fd) tail (dict_update acc d)).
Proof.
  induction 1 as [|[k v] [k' j] d js [Hk Hj] _ IH]; intros acc tail; simpl.
  - reflexivity.
  - simpl in Hk, Hj. subst k'. specialize (Hj acc).
    destruct (deserialize_item fd (deserialize R fd) k j acc) as [r j'].
    simpl in Hj. subst r.
    specialize (IH (dict_set acc k v) tail).
    destruct (deserialize_items fd (deserialize R fd) (js ++ tail)
                (dict_set acc k v)) as [r' rest'].
    simpl in *. exact IH.
Qed.

(** An allowed attribute that holds a value that round-trips is decoded
    into its entry. *)
Lemma field_of_round_trip transient key v m :
  allowed fs fd transient key = true ->
  round_trips R fs fd m v ->
  field_round_trips R fs fd m (key, v).
Proof.
  intros Hal (j & Hj & Hback & Hshape). exists j. split; [exact Hj|].
  intros acc. simpl. unfold deserialize_item.
  unfold allowed, decoded_key in Hal.
  apply andb_prop in Hal. destruct Hal as [_ Hal].
  apply andb_prop in Hal. destruct Hal as [Hne Hpriv].
  apply negb_true_iff in Hne. rewrite Hne.
  replace (negb fd && startswith_underscore key) with false
    by (destruct fd, (startswith_underscore key); simpl in *; congruence).
  destruct v; simpl in Hshape; subst;
    try reflexivity; try contradiction;
    try (destruct (deserialize R fd j) as [r j'] eqn:E;
         simpl in Hback; subst r;
         rewrite Hshape, ?orb_true_r; simpl; reflexivity).
Qed.

(** So is one that holds a plain mapping without a tag: it is stored as
    it is. *)
Lemma field_of_untagged_mapping transient key v m :
  allowed fs fd transient key = true ->
  untagged_mapping v ->
  serialize m R v fs = Ok v ->
  field_round_trips R fs fd m (key, v).
Proof.
  intros Hal (d & -> & Hnone) Hj. exists (VDict d). split; [exact Hj|].
  intros acc. simpl. unfold deserialize_item.
  unfold allowed, decoded_key in Hal.
  apply andb_prop in Hal. destruct Hal as [_ Hal].
  apply andb_prop in Hal. destruct Hal as [Hne Hpriv].
  apply negb_true_iff in Hne. rewrite Hne.
  replace (negb fd && startswith_underscore key) with false
    by (destruct fd, (startswith_underscore key); simpl in *; congruence).
  simpl. unfold dict_mem. now rewrite Hnone.
Qed.

Lemma list_round_trips l :
  Forall (fun x => exists n, forall m, n <= m -> round_trips R fs fd m x) l ->
  exists n, forall m, n <= m -> round_trips R fs fd m (VList l).
Proof.
  intros Hall. apply Forall_bound in Hall. destruct Hall as [n Hn].
  exists (S n). intros [|m] Hm; [lia|]. specialize (Hn m ltac:(lia)).
  destruct (mapM_Forall2 (dumps_loads (default_hook R fs) m)
              (fun x j => fst (deserialize R fd j) = Ok x) l) as (js & Hjs & Hback).
  { eapply List.Forall_impl; [|exact Hn].
    intros x (j & Hj & Hx & _). exists j. split; assumption. }
  exists (VList js). unfold serialize. simpl dumps_loads. rewrite Hjs.
  split; [reflexivity|]. split; [|reflexivity].
  rewrite deserialize_VList. unfold deserialize_list.
  now rewrite (deserialize_list_elements l js Hback []).
Qed.

Lemma codec_round_trips v (f : encoder) (g : decoder) d :
  is_instance v = true ->
  serializers R !! type_of v = Some f ->
  fst (f v) = Ok (VDict d) ->
  plain (VDict d) ->
  deserializers R !! ty_name (type_of v) = Some g ->
  fst (g (dict_del (dict_set d discriminator (VStr (ty_name (type_of v))))
            discriminator)) = Ok v ->
  exists n, forall m, n <= m -> round_trips R fs fd m v.
Proof.
  intros Hinst Hs Hf Hplain Hg Hback.
  set (sent := dict_set d discriminator (VStr (ty_name (type_of v)))) in *.
  assert (Hdefault : default_hook R fs v = Ok (VDict sent)).
  { unfold default_hook, serialize_object; cbv zeta. rewrite Hs.
    destruct (f v) as [r v']. simpl in Hf. subst r. reflexivity. }
  destruct (plain_dumps_loads (VDict sent)) as [n Hn].
  { apply plain_dict_set; [assumption | constructor]. }
  exists (S n). intros [|m] Hm; [lia|]. exists (VDict sent).
  split; [|split].
  - unfold serialize in *.
    destruct v; try discriminate; simpl dumps_loads; rewrite Hdefault;
      simpl bind; apply Hn; lia.
  - rewrite deserialize_VDict. unfold deserialize_dict, deserialize_dict_with.
    unfold sent at 1. rewrite dict_get_set_eq. simpl registry_get. rewrite Hg.
    destruct (g (dict_del sent discriminator)) as [r obj'].
    simpl in Hback. subst r. reflexivity.
  - assert (Htag : is_tagged_dict (VDict sent) = true).
    { simpl. unfold dict_mem, sent. now rewrite dict_get_set_eq. }
    destruct v; try discriminate; exact Htag.
Qed.

Lemma instance_round_trips t d type_data created_instance :
  serializers R !! t = None ->
  serializable_types R !! fullname t = Some type_data ->
  deserializers R !! fullname t = None ->
  List.NoDup (dict_keys d) ->
  Forall (fun kv => allowed fs fd (transient_attributes type_data) (fst kv) = true) d ->
  Forall (fun kv => exists n, forall m, n <= m ->
                      field_round_trips R fs fd m kv) d ->
  construct (cls type_data)
    (constructor_fields (init_parameters (cls type_data)) d)
  = Ok created_instance ->
  set_attributes created_instance
    (extra_fields (init_parameters (cls type_data)) d)
  = Ok (VObj t d) ->
  exists n, forall m, n <= m -> round_trips R fs fd m (VObj t d).
Proof.
  intros Hs Ht Hd Hnd Hal Hfields Hc Hset.
  apply Forall_bound in Hfields. destruct Hfields as [n Hn].
  exists (S (S (S n))). intros [|[|m]] Hm; try lia.
  specialize (Hn m ltac:(lia)).
  set (tag := (discriminator, VStr (fullname t))).
  (* what [serialize_object] returns *)
  assert (Hkept : kept_attributes fs (transient_attributes type_data) d = d).
  { apply filter_all. eapply List.Forall_impl; [|exact Hal].
    intros [k v] H. simpl in *. unfold allowed in H.
    now apply andb_prop in H. }
  assert (Hfresh : ~ In discriminator (dict_keys d)).
  { intros Hin. unfold dict_keys in Hin. apply in_map_iff in Hin.
    destruct Hin as ([k v] & Hk & Hin). simpl in Hk. subst k.
    rewrite List.Forall_forall in Hal. specialize (Hal _ Hin). simpl in Hal.
    unfold allowed, decoded_key in Hal. rewrite String.eqb_refl in Hal.
    simpl in Hal. now rewrite andb_false_r in Hal. }
  assert (Hdefault : default_hook R fs (VObj t d) = Ok (VDict (d ++ [tag]))).
  { unfold default_hook.
    rewrite (serialize_object_by_descriptor R t d fs type_data Hs Ht Hnd).
    simpl. rewrite Hkept. now rewrite dict_set_fresh. }
  (* what [json] makes of it *)
  destruct (mapM_Forall2
              (fun kv => let* v := dumps_loads (default_hook R fs) m (snd kv) in
                         Ok (fst kv, v))
              (fun kv kj =>
                 fst kj = fst kv /\
                 forall acc,
                   fst (deserialize_item fd (deserialize R fd) (fst kv) (snd kj) acc)
                   = Ok (dict_set acc (fst kv) (snd kv))) d)
    as (js & Hjs & Hback).
  { eapply List.Forall_impl; [|exact Hn].
    intros [k v] (j & Hj & Hitem). unfold serialize in Hj. simpl in *.
    exists (k, j). rewrite Hj. simpl. auto. }
  assert (Hkeys : dict_keys js = dict_keys d).
  { clear -Hback. induction Hback as [|[k v] [k' j] d js [Hk _] _ IH]; simpl;
      [reflexivity|]. simpl in Hk. now rewrite Hk, IH. }
  exists (VDict (js ++ [tag])). split; [|split].
  - unfold serialize. simpl dumps_loads. rewrite Hdefault. simpl bind.
    rewrite mapM_app, Hjs. simpl.
    destruct m as [|m]; [lia|]. reflexivity.
  - rewrite deserialize_VDict.
    assert (Htag : dict_get (js ++ [tag]) discriminator = Some (VStr (fullname t))).
    { rewrite dict_get_app_notin by (now rewrite Hkeys). reflexivity. }
    rewrite (deserialize_dict_by_descriptor R fd (js ++ [tag]) (fullname t)
               type_data Htag Hd Ht).
    simpl fst.
    rewrite (deserialize_items_fields d js Hback [] [tag]).
    rewrite dict_update_nil by assumption.
    simpl. rewrite Hc. simpl. exact Hset.
  - simpl. unfold dict_mem.
    rewrite dict_get_app_notin by (now rewrite Hkeys). reflexivity.
Qed.

(** Every faithful value comes back from its representation, for every
    recursion limit from some point on. *)
Lemma faithful_round_trips v :
  faithful R fs fd v ->
  exists n, forall m, n <= m -> round_trips R fs fd m v.
Proof.
  induction v as [| | | |l IH|d IH|t d IH|t s] using pyvalue_ind;
    intros Hf;
    inversion Hf as [ | | | | l' Hall
                    | v' f g d' Hi Hs Hfv Hp Hg Hb
                    | t' d' type_data created_instance
                        Hs Ht Hd Hnd Hfields Hc Hset ];
    subst;
    try discriminate;
    try (exists 1; intros [|m] Hm; [lia|]; eexists; repeat split; reflexivity);
    try (eapply codec_round_trips; eassumption).
  - apply list_round_trips. rewrite Forall_forall in *. auto.
  - eapply instance_round_trips; try eassumption.
    + eapply List.Forall_impl; [|exact Hfields]. intros kv H. apply H.
    + clear -IH Hfields. induction Hfields as [|[k v] d [Hal Hv] _ IHd];
        [constructor|].
      inversion IH as [|? ? IHv IHrest]; subst. constructor; [|now apply IHd].
      simpl in *. destruct Hv as [Hv|[Hp Hu]].
      * destruct (IHv Hv) as [n Hn]. exists n. intros m Hm.
        eapply field_of_round_trip; eauto.
      * destruct (plain_dumps_loads v Hp) as [n Hn]. exists n. intros m Hm.
        eapply field_of_untagged_mapping; eauto.
Qed.
End RoundTrip.

(** C1 fails on the code as stated.  [Temperature] is a registered type and
    its instance has one attribute, which is neither private nor transient;
    its representation is decoded into a call of the class without its
    required argument, which raises.  A session that holds a point inside a
    plain mapping is decoded without error, but the point comes back as the
    mapping that represents it. *)
Lemma round_trip_fails :
  (serialize 3 lab_registries a_temperature false
   = Ok (VDict [("kelvin", VInt 293); ("_serialized_type", VStr "app.Temperature")])
   /\
   fst (deserialize lab_registries false
          (VDict [("kelvin", VInt 293);
                  ("_serialized_type", VStr "app.Temperature")]))
   = Err (TypeError "__init__() missing required argument: celsius")) /\
  (exists j decoded,
     serialize 6 app_registries a_tour false = Ok j /\
     fst (deserialize app_registries false j) = Ok decoded /\
     getattr a_tour "stops" = Some (VDict [("first", a_point)]) /\
     getattr decoded "stops"
     = Some (VDict [("first", VDict [("x", VInt 1); ("y", VInt 2);
                                     ("_serialized_type", VStr "app.Point")])])).
Proof.
  split.
  - split; reflexivity.
  - do 2 eexists. split; [reflexivity|]. split; [reflexivity|].
    split; reflexivity.
Qed.

(** C1, amended: every faithful value, and so every instance of a registered
    serializable type whose attributes are allowed, hold scalars, lists,
    instances with an inverse pair of registered serializer and deserializer,
    plain mappings without a tag or instances of the same kind, and which its
    class rebuilds from its attributes, is returned by [deserialize] from
    what [serialize] returns for it, once the recursion limit is large
    enough. *)
Theorem faithful_instance_round_trips
    (R : registries) (fs fd : bool) (i : pyvalue) :
  faithful R fs fd i ->
  exists n, forall fuel, n <= fuel ->
    exists j, serialize fuel R i fs = Ok j /\
              fst (deserialize R fd j) = Ok i.
Proof.
  intros Hf. destruct (faithful_round_trips R fs fd i Hf) as [n Hn].
  exists n. intros fuel Hfuel.
  destruct (Hn fuel Hfuel) as (j & Hj & Hback & _). eauto.
Qed.

Lemma a_point_faithful fs fd : faithful app_registries fs fd a_point.
Proof.
  eapply (faithful_instance app_registries fs fd Point_t _
            (mkSerializableTypeData Point [])); try reflexivity.
  - repeat constructor; simpl; intuition discriminate.
  - repeat (apply List.Forall_cons || apply List.Forall_nil); simpl;
      (split; [destruct fs, fd; reflexivity | left; constructor]).
Defined.

Lemma a_datetime_faithful fs fd : faithful app_registries fs fd a_datetime.
Proof.
  eapply (faithful_codec app_registries fs fd a_datetime
            serialize_datetime deserialize_datetime); try reflexivity.
  repeat constructor.
Defined.

Lemma a_visit_faithful : faithful app_registries false false a_visit.
Proof.
  eapply (faithful_instance app_registries false false Session_t _
            (mkSerializableTypeData Session ["_token"])); try reflexivity.
  - repeat constructor; simpl; intuition discriminate.
  - repeat (apply List.Forall_cons || apply List.Forall_nil); simpl;
      (split; [reflexivity|]).
    + left. constructor.
    + left. apply a_point_faithful.
    + left. constructor.
      repeat (apply List.Forall_cons || apply List.Forall_nil);
        [apply a_datetime_faithful | constructor].
    + right. split; [repeat constructor|]. eexists. split; reflexivity.
Defined.

Lemma faithful_instance_round_trips_witness :
  exists n, forall fuel, n <= fuel ->
    exists j, serialize fuel app_registries a_visit false = Ok j /\
              fst (deserialize app_registries false j) = Ok a_visit.
Proof.
  apply (faithful_instance_round_trips app_registries false false a_visit).
  apply a_visit_faithful.
Defined.

(** The examples of the specification: a point and a date. *)
Example point_round_trip :
  serialize 3 app_registries a_point false
  = Ok (VDict [("x", VInt 1); ("y", VInt 2); ("_serialized_type", VStr "app.Point")])
  /\
  fst (deserialize app_registries false
         (VDict [("x", VInt 1); ("y", VInt 2);
                 ("_serialized_type", VStr "app.Point")]))
  = Ok a_point.
Proof. split; reflexivity. Qed.

Example datetime_round_trip :
  serialize 3 module_registries a_datetime false
  = Ok (VDict [("datetime", VStr "2023-01-01 00:00:00");
               ("_serialized_type", VStr "datetime")])
  /\
  fst (deserialize module_registries false
         (VDict [("datetime", VStr "2023-01-01 00:00:00");
                 ("_serialized_type", VStr "datetime")]))
  = Ok a_datetime.
Proof. split; reflexivity. Qed.

Example visit_round_trip :
  match serialize 6 app_registries a_visit false with
  | Ok j => fst (deserialize app_registries false j)
  | Err e => Err e
  end = Ok a_visit.
Proof. reflexivity. Qed.

(** ** Counterexamples to the decoding claims as stated *)

(** C5 fails on the code as stated: [Temperature.__init__] accepts [celsius]
    and stores [kelvin], so the instance that is decoded from a mapping with
    the field [celsius] has no attribute of that name. *)
Lemma constructor_field_not_carried :
  ~ (forall instance dd key v,
       fst (deserialize_dict lab_registries false a_tagged_temperature)
       = Ok instance ->
       fst (deserialize_items false (deserialize lab_registries false)
              a_tagged_temperature []) = Ok dd ->
       In (key, v) dd ->
       getattr instance key = Some v).
Proof.
  intros H.
  specialize (H _ _ "celsius" (VInt 20) eq_refl eq_refl (or_introl eq_refl)).
  discriminate H.
Qed.

(** With [deserialize_private_attributes], a field called [__dict__] is
    assigned like the others, and [setattr] then replaces the attributes of
    the instance: what the constructor stored and what was assigned before is
    gone.  A field called [__class__] makes the assignment raise. *)
Example field_named_dict_replaces_attributes :
  fst (deserialize_dict app_registries true a_tagged_session_with_dict)
  = Ok (VObj Session_t [("x", VInt 1)]) /\
  fst (deserialize_dict app_registries false a_tagged_session_with_dict)
  = Ok (VObj Session_t [("user", VStr "ann"); ("hits", VInt 7)]) /\
  fst (deserialize_dict app_registries true a_tagged_session_with_class)
  = Err (TypeError "__class__ must be set to a class, not 'str' object").
Proof. repeat split. Qed.

Lemma bank_registries_registered :
  Deserializer_init app_registries deserialize_money Money_t = Ok bank_registries.
Proof. reflexivity. Qed.

(** C10 fails on the code as stated: the registered deserializer is handed
    the mapping itself, and one that pops what it reads leaves the mapping
    without that key after a successful decode. *)
Lemma deserializer_may_change_mapping :
  exists result m',
    deserialize_dict bank_registries false a_tagged_money = (Ok result, m') /\
    dict_get a_tagged_money "amount" = Some (VStr "12.50") /\
    dict_get m' "amount" = None.
Proof. eexists _, _. split; [reflexivity|]. split; reflexivity. Qed.

(** * Further properties *)

(** ** [deserialize] and [deserialize_list] *)

Lemma deserialize_list_unchanged R flag (l : list pyvalue) :
  Forall (fun x => deserialize R flag x = (Ok x, x)) l ->
  forall acc,
    deserialize_list_with (deserialize R flag) l acc = (Ok (acc ++ l), l).
Proof.
  induction 1 as [|x l Hx _ IH]; intros acc; simpl.
  - now rewrite app_nil_r.
  - rewrite Hx, IH, <- app_assoc. reflexivity.
Qed.

(** A value made of scalars, instances and lists of them, with no [dict]
    in a list, is returned as it is by [deserialize], whatever is
    registered, and is not changed. *)
Theorem deserialize_without_mappings (R : registries) (flag : bool) (v : pyvalue) :
  dictless v -> deserialize R flag v = (Ok v, v).
Proof.
  induction v as [| | | |l IH|d IH|t d IH|t s] using pyvalue_ind;
    intros Hv; inversion Hv as [| | | |l' Hall| |]; subst; try reflexivity.
  simpl. rewrite (deserialize_list_unchanged R flag l); [reflexivity|].
  rewrite List.Forall_forall in *. auto.
Qed.

Lemma deserialize_without_mappings_witness :
  deserialize module_registries false (VList [VInt 1; VList [VStr "a"; a_datetime]])
  = (Ok (VList [VInt 1; VList [VStr "a"; a_datetime]]),
     VList [VInt 1; VList [VStr "a"; a_datetime]]).
Proof.
  apply (deserialize_without_mappings module_registries false).
  repeat constructor.
Defined.

Lemma deserialize_list_with_decoded R flag (lst : list pyvalue) :
  forall acc l',
    fst (deserialize_list_with (deserialize R flag) lst acc) = Ok l' ->
    exists tail, l' = acc ++ tail /\
                 Forall2 (fun x y => fst (deserialize R flag x) = Ok y) lst tail.
Proof.
  induction lst as [|x lst IH]; intros acc l'; simpl.
  - intros [= <-]. exists []. split; [now rewrite app_nil_r | constructor].
  - destruct (deserialize R flag x) as [[y|e] x'] eqn:Ex; [|discriminate].
    destruct (deserialize_list_with (deserialize R flag) lst (acc ++ [y]))
      as [r rest] eqn:E. simpl. intros ->.
    destruct (IH (acc ++ [y]) l') as (tail & -> & Hall); [now rewrite E|].
    exists (y :: tail). rewrite <- app_assoc. split; [reflexivity|].
    constructor; [now rewrite Ex | assumption].
Qed.

(** [deserialize_list] returns a list exactly when every element decodes, and
    the list it returns holds the decoded elements in their order. *)
Theorem deserialize_list_elementwise
    (R : registries) (flag : bool) (lst l' : list pyvalue) :
  fst (deserialize_list R flag lst) = Ok l' <->
  Forall2 (fun x y => fst (deserialize R flag x) = Ok y) lst l'.
Proof.
  unfold deserialize_list. split.
  - intros H. apply deserialize_list_with_decoded in H.
    destruct H as (tail & -> & Hall). exact Hall.
  - intros Hall.
    assert (H : Forall2 (fun y x => fst (deserialize R flag x) = Ok y) l' lst).
    { clear -Hall. induction Hall; constructor; assumption. }
    now rewrite (deserialize_list_elements R flag l' lst H []).
Qed.

(** When an element raises and the elements before it decode,
    [deserialize_list] raises what that element raises: what was decoded so
    far is not returned. *)
Theorem deserialize_list_first_error
    (R : registries) (flag : bool) (before after : list pyvalue)
    (x : pyvalue) (e : exn) :
  Forall (fun y => exists z, fst (deserialize R flag y) = Ok z) before ->
  fst (deserialize R flag x) = Err e ->
  fst (deserialize_list R flag (before ++ x :: after)) = Err e /\
  fst (deserialize R flag (VList (before ++ x :: after))) = Err e.
Proof.
  intros Hbefore Hx.
  assert (H : forall acc,
             fst (deserialize_list_with (deserialize R flag)
                    (before ++ x :: after) acc) = Err e).
  { induction Hbefore as [|y before [z Hy] _ IH]; intros acc; simpl.
    - destruct (deserialize R flag x) as [r x']. simpl in Hx. now subst r.
    - destruct (deserialize R flag y) as [r y']. simpl in Hy. subst r.
      specialize (IH (acc ++ [z])).
      now destruct (deserialize_list_with (deserialize R flag)
                      (before ++ x :: after) (acc ++ [z])). }
  split.
  - apply H.
  - rewrite deserialize_VList. unfold deserialize_list. now rewrite H.
Qed.

Lemma deserialize_list_first_error_witness :
  fst (deserialize module_registries false
         (VList ([VInt 1] ++ VDict [("a", VInt 1)] :: [VInt 2])))
  = Err (KeyError "_serialized_type").
Proof.
  apply (deserialize_list_first_error module_registries false
           [VInt 1] [VInt 2] (VDict [("a", VInt 1)])).
  - repeat constructor. eexists. reflexivity.
  - reflexivity.
Defined.

(** ** Registration and what it enables *)

(** [register_serializable_type] is keyed by the full name alone: a second
    registration under the same full name, be it of another class, replaces
    the first as if it had not been made, and no registration touches the
    entry of another name or the serializers and deserializers. *)
Theorem register_serializable_type_last_wins
    (R : registries) (c c' : pyclass) (tr tr' : option (list string)) :
  fullname (cls_type c) = fullname (cls_type c') ->
  register_serializable_type (register_serializable_type R c tr) c' tr'
  = register_serializable_type R c' tr' /\
  serializable_types (register_serializable_type R c tr) !! fullname (cls_type c')
  = Some (new_SerializableTypeData c tr) /\
  (forall name, name <> fullname (cls_type c) ->
     serializable_types (register_serializable_type R c tr) !! name
     = serializable_types R !! name) /\
  serializers (register_serializable_type R c tr) = serializers R /\
  deserializers (register_serializable_type R c tr) = deserializers R.
Proof.
  intros Hname. unfold register_serializable_type. simpl.
  split; [|split; [|split; [|split]]]; try reflexivity.
  - rewrite Hname. now rewrite insert_insert_eq.
  - rewrite <- Hname. apply lookup_insert_eq.
  - intros name Hne. now apply lookup_insert_ne.
Qed.

Lemma register_serializable_type_last_wins_witness :
  register_serializable_type (register_serializable_type module_registries Point None)
    Point_twin (Some ["x"])
  = register_serializable_type module_registries Point_twin (Some ["x"]).
Proof.
  apply (register_serializable_type_last_wins module_registries Point Point_twin
           None (Some ["x"])).
  reflexivity.
Defined.



(** [@serializer(serialized_type=t)]: the decorated name calls the function,
    and from then on [serialize_object] hands every value of type [t] to the
    function and tags what it returns with the [__name__] of [t], whatever
    was registered for [t] before; the serializers of other types stay. *)
Theorem serializer_decorator
    (R : registries) (t : pytype) (function : encoder)
    (obj : pyvalue) (flag : bool) :
  type_of obj = t ->
  Serializer_call (fst (serializer t R function)) obj = function obj /\
  serialize_object (snd (serializer t R function)) obj flag
  = (let* value := fst (function obj) in
     setitem value discriminator (VStr (ty_name t)), snd (function obj)) /\
  (forall t', t' <> t ->
     serializers (snd (serializer t R function)) !! t' = serializers R !! t').
Proof.
  intros Ht. split; [reflexivity|]. split.
  - unfold serialize_object; cbv zeta. rewrite Ht. simpl serializers.
    rewrite lookup_insert_eq. now destruct (function obj).
  - intros t' Hne. simpl. apply lookup_insert_ne. congruence.
Qed.

Lemma serializer_decorator_witness :
  serialize_object (snd (serializer Money_t app_registries serialize_money))
    a_money false
  = (Ok (VDict [("amount", VStr "12.50"); ("_serialized_type", VStr "Money")]),
     a_money).
Proof.
  apply (serializer_decorator app_registries Money_t serialize_money a_money false).
  reflexivity.
Defined.

(** [@deserializer(deserialized_type_name=t)] on a name that is free: the
    decorated name calls the function, and from then on [deserialize_dict]
    hands every mapping tagged with the [__name__] of [t] to the function,
    without the tag, and sets the tag again when the function returns. *)
Theorem deserializer_decorator
    (R : registries) (t : pytype) (function : decoder) :
  deserializers R !! ty_name t = None ->
  exists self R',
    deserializer t R function = Ok (self, R') /\
    (forall m, Deserializer_call self m = function m) /\
    forall flag obj,
      dict_get obj discriminator = Some (VStr (ty_name t)) ->
      deserialize_dict R' flag obj
      = (fst (function (dict_del obj discriminator)),
         match fst (function (dict_del obj discriminator)) with
         | Ok _ => dict_set (snd (function (dict_del obj discriminator)))
                     discriminator (VStr (ty_name t))
         | Err _ => snd (function (dict_del obj discriminator))
         end).
Proof.
  intros Hfree. unfold deserializer, Deserializer_init. rewrite Hfree. simpl.
  eexists _, _. split; [reflexivity|]. split; [reflexivity|].
  intros flag obj Hget. unfold deserialize_dict, deserialize_dict_with.
  rewrite Hget. simpl. rewrite lookup_insert_eq.
  now destruct (function (dict_del obj discriminator)) as [[r|e] obj'].
Qed.

Lemma deserializer_decorator_witness :
  exists self R',
    deserializer Money_t app_registries deserialize_money = Ok (self, R') /\
    fst (deserialize_dict R' false a_tagged_money) = Ok a_money.
Proof.
  destruct (deserializer_decorator app_registries Money_t deserialize_money eq_refl)
    as (self & R' & H & _ & Hd).
  exists self, R'. split; [exact H|].
  now rewrite (Hd false a_tagged_money eq_refl).
Defined.

(** Deserializers are keyed by [__name__] and serializers by the type: after
    a deserializer is registered for a type, one for another type of the same
    [__name__] is refused, while serializers for the two types are both
    kept. *)
Theorem deserializer_names_collide
    (R : registries) (t1 t2 : pytype) (f g : decoder) (sf sg : encoder) :
  ty_name t1 = ty_name t2 ->
  t1 <> t2 ->
  deserializers R !! ty_name t1 = None ->
  (exists R1, Deserializer_init R f t1 = Ok R1 /\
              exists msg, Deserializer_init R1 g t2 = Err (RuntimeError msg)) /\
  serializers (Serializer_init (Serializer_init R sf t1) sg t2) !! t1 = Some sf /\
  serializers (Serializer_init (Serializer_init R sf t1) sg t2) !! t2 = Some sg.
Proof.
  intros Hname Hne Hfree. split; [|split].
  - unfold Deserializer_init at 1. rewrite Hfree. eexists. split; [reflexivity|].
    unfold Deserializer_init. simpl. rewrite <- Hname, lookup_insert_eq. eauto.
  - simpl. rewrite lookup_insert_ne by congruence. apply lookup_insert_eq.
  - simpl. apply lookup_insert_eq.
Qed.

Lemma deserializer_names_collide_witness :
  exists R1, Deserializer_init empty_registries deserialize_datetime datetime_t = Ok R1 /\
             exists msg, Deserializer_init R1 deserialize_money other_datetime_t
                         = Err (RuntimeError msg).
Proof.
  apply (deserializer_names_collide empty_registries datetime_t other_datetime_t
           deserialize_datetime deserialize_money serialize_datetime serialize_money).
  - reflexivity.
  - discriminate.
  - reflexivity.
Defined.

(** ** The deserializer path *)

(** On decoding, a registered deserializer comes first: for a mapping whose
    tag names one, [deserialize_dict] depends on nothing but the
    deserializers; no field is decoded and no class is looked up. *)
Theorem deserializer_takes_precedence
    (R : registries) (flag : bool) (obj : pydict) (name : string) (f : decoder) :
  dict_get obj discriminator = Some (VStr name) ->
  deserializers R !! name = Some f ->
  fst (deserialize_dict R flag obj) = fst (f (dict_del obj discriminator)) /\
  forall R' flag',
    deserializers R' = deserializers R ->
    deserialize_dict R' flag' obj = deserialize_dict R flag obj.
Proof.
  intros Hget Hf. unfold deserialize_dict, deserialize_dict_with.
  rewrite Hget. simpl. rewrite Hf. split.
  - now destruct (f (dict_del obj discriminator)) as [[r|e] obj'].
  - intros R' flag' ->. now rewrite Hf.
Qed.

Lemma deserializer_takes_precedence_witness :
  fst (deserialize_dict module_registries false a_tagged_datetime) = Ok a_datetime.
Proof.
  apply (deserializer_takes_precedence module_registries false a_tagged_datetime
           "datetime" deserialize_datetime); reflexivity.
Defined.

(** When the registered deserializer raises, [deserialize_dict] raises the
    same error, and the tag that it deleted before the call is not put back:
    the mapping is left as the deserializer left it, without
    [_serialized_type] unless the deserializer set it. *)
Theorem deserializer_error_leaves_tag_off
    (R : registries) (flag : bool) (m m' : pydict) (tag : pyvalue)
    (f : decoder) (e : exn) :
  dict_get m discriminator = Some tag ->
  registry_get (deserializers R) tag = Ok (Some f) ->
  f (dict_del m discriminator) = (Err e, m') ->
  deserialize_dict R flag m = (Err e, m') /\
  (m' = dict_del m discriminator -> dict_get m' discriminator = None).
Proof.
  intros Hget Hreg Hf. split.
  - unfold deserialize_dict, deserialize_dict_with. now rewrite Hget, Hreg, Hf.
  - intros ->. apply dict_get_del_eq.
Qed.

Lemma deserializer_error_leaves_tag_off_witness :
  deserialize_dict bank_registries false an_untagged_money
  = (Err (KeyError "amount"), []).
Proof.
  apply (deserializer_error_leaves_tag_off bank_registries false
           an_untagged_money [] (VStr "Money") deserialize_money (KeyError "amount"));
    reflexivity.
Defined.

(** ** The descriptor path of decoding *)

(** A mapping whose tag names neither a registered deserializer nor a
    registered serializable type always makes [deserialize_dict] raise, and
    when its fields decode the error is [KeyError] of the name. *)
Theorem unregistered_tag_raises
    (R : registries) (flag : bool) (obj : pydict) (name : string) :
  dict_get obj discriminator = Some (VStr name) ->
  deserializers R !! name = None ->
  serializable_types R !! name = None ->
  (exists e, fst (deserialize_dict R flag obj) = Err e) /\
  (forall dd, fst (deserialize_items flag (deserialize R flag) obj []) = Ok dd ->
              fst (deserialize_dict R flag obj) = Err (KeyError name)).
Proof.
  intros Hget Hd Ht.
  assert (H : fst (deserialize_dict R flag obj)
              = (let* dd := fst (deserialize_items flag (deserialize R flag) obj []) in
                 Err (KeyError name))).
  { unfold deserialize_dict, deserialize_dict_with. rewrite Hget. simpl.
    rewrite Hd.
    destruct (deserialize_items flag (deserialize R flag) obj []) as [r obj'] eqn:E.
    simpl. destruct r as [dd|e]; [|reflexivity]. simpl.
    rewrite (deserialize_items_disc _ _ _ _ _ _ E), Hget.
    unfold build_instance. simpl. now rewrite Ht. }
  rewrite H. split.
  - destruct (fst (deserialize_items flag (deserialize R flag) obj [])); simpl; eauto.
  - intros dd ->. reflexivity.
Qed.

Lemma unregistered_tag_raises_witness :
  fst (deserialize_dict module_registries false a_tagged_session)
  = Err (KeyError "app.Session").
Proof.
  refine (proj2 (unregistered_tag_raises module_registries false a_tagged_session
                   "app.Session" _ _ _) _ _); reflexivity.
Defined.

Lemma deserialize_item_private f key value acc :
  String.eqb key discriminator || negb (startswith_underscore key) = false ->
  deserialize_item false f key value acc = (Ok acc, value).
Proof.
  intros H. apply orb_false_elim in H. destruct H as [Hk Hp].
  apply negb_false_iff in Hp. unfold deserialize_item. now rewrite Hk, Hp.
Qed.

Lemma deserialize_items_public f (items : pydict) :
  forall acc,
    fst (deserialize_items false f (public_entries items) acc)
    = fst (deserialize_items false f items acc).
Proof.
  unfold public_entries.
  induction items as [|[key value] rest IH]; intros acc; simpl; [reflexivity|].
  destruct (String.eqb key discriminator || negb (startswith_underscore key)) eqn:E;
    simpl.
  - destruct (deserialize_item false f key value acc) as [[acc'|e] value'];
      [|reflexivity].
    specialize (IH acc').
    destruct (deserialize_items false f rest acc') as [r1 rest1].
    destruct (deserialize_items false f (List.filter _ rest) acc') as [r2 rest2].
    exact IH.
  - rewrite (deserialize_item_private f key value acc E).
    specialize (IH acc).
    destruct (deserialize_items false f rest acc) as [r1 rest1].
    simpl in *. exact IH.
Qed.

(** Without [deserialize_private_attributes], and unless the tag names a
    registered deserializer, [deserialize_dict] returns for a mapping what it
    returns for the mapping without its private entries: they are not
    decoded, so whatever they hold raises nothing. *)
Theorem private_entries_are_not_decoded (R : registries) (obj : pydict) :
  (forall tag f, dict_get obj discriminator = Some tag ->
                 registry_get (deserializers R) tag <> Ok (Some f)) ->
  fst (deserialize_dict R false obj)
  = fst (deserialize_dict R false (public_entries obj)).
Proof.
  intros Hno.
  assert (Htag : dict_get (public_entries obj) discriminator
                 = dict_get obj discriminator).
  { unfold public_entries.
    rewrite (dict_get_filter
               (fun k => String.eqb k discriminator || negb (startswith_underscore k))).
    reflexivity. }
  assert (Hby : forall (a b : pydict),
             dict_get a discriminator = dict_get b discriminator ->
             fst (deserialize_items false (deserialize R false) a [])
             = fst (deserialize_items false (deserialize R false) b []) ->
             fst (let '(r, obj') := deserialize_items false (deserialize R false) a [] in
                  (let* dd := r in
                   match dict_get obj' discriminator with
                   | None => Err (KeyError discriminator)
                   | Some class_name => build_instance R class_name dd
                   end, obj'))
             = fst (let '(r, obj') := deserialize_items false (deserialize R false) b [] in
                    (let* dd := r in
                     match dict_get obj' discriminator with
                     | None => Err (KeyError discriminator)
                     | Some class_name => build_instance R class_name dd
                     end, obj'))).
  { intros a b Hab Hitems.
    destruct (deserialize_items false (deserialize R false) a []) as [ra a'] eqn:Ea.
    destruct (deserialize_items false (deserialize R false) b []) as [rb b'] eqn:Eb.
    simpl in *. subst rb.
    rewrite (deserialize_items_disc _ _ _ _ _ _ Ea).
    rewrite (deserialize_items_disc _ _ _ _ _ _ Eb).
    now rewrite Hab. }
  specialize (Hby obj (public_entries obj) (eq_sym Htag)
                (eq_sym (deserialize_items_public _ obj []))).
  unfold deserialize_dict, deserialize_dict_with. rewrite Htag.
  destruct (dict_get obj discriminator) as [tag|] eqn:Hget; [|exact Hby].
  destruct (registry_get (deserializers R) tag) as [[f|]|e] eqn:Hreg.
  - exfalso. exact (Hno tag f eq_refl Hreg).
  - exact Hby.
  - reflexivity.
Qed.

Lemma private_entries_are_not_decoded_witness :
  fst (deserialize_dict app_registries false
         [("user", VStr "ann"); ("_cache", VList [VDict [("a", VInt 1)]]);
          ("_serialized_type", VStr "app.Session")])
  = fst (deserialize_dict app_registries false
           [("user", VStr "ann"); ("_serialized_type", VStr "app.Session")]).
Proof.
  apply (private_entries_are_not_decoded app_registries
           [("user", VStr "ann"); ("_cache", VList [VDict [("a", VInt 1)]]);
            ("_serialized_type", VStr "app.Session")]).
  intros tag f [= <-]. discriminate.
Defined.

Lemma deserialize_item_value flag f key value acc acc' value' :
  deserialize_item flag f key value acc = (Ok acc', value') ->
  decoded_key flag key = true ->
  exists x, acc' = dict_set acc key x /\
            (if is_list value || is_tagged_dict value
             then fst (f value) = Ok x
             else x = value).
Proof.
  unfold deserialize_item, decoded_key. intros H Hk.
  apply andb_prop in Hk. destruct Hk as [Hne Hp].
  apply negb_true_iff in Hne. rewrite Hne in H.
  replace (negb flag && startswith_underscore key) with false in H
    by (destruct flag, (startswith_underscore key); simpl in *; congruence).
  destruct (is_list value || is_tagged_dict value).
  - destruct (f value) as [[x|e] v']; simpl in H; [|discriminate].
    injection H as <- <-. eauto.
  - injection H as <- <-. eauto.
Qed.

Lemma deserialize_items_lookup flag f (items : pydict) :
  forall acc dd items',
    deserialize_items flag f items acc = (Ok dd, items') ->
    List.NoDup (dict_keys items) ->
    (forall key, ~ In key (dict_keys items) -> dict_get dd key = dict_get acc key) /\
    (forall key value,
       dict_get items key = Some value -> decoded_key flag key = true ->
       exists x, dict_get dd key = Some x /\
                 (if is_list value || is_tagged_dict value
                  then fst (f value) = Ok x
                  else x = value)).
Proof.
  induction items as [|[k v] rest IH]; simpl; intros acc dd items' H Hnd.
  - injection H as <- _. split; [reflexivity | discriminate].
  - inversion Hnd as [|? ? Hk Hrest]; subst.
    destruct (deserialize_item flag f k v acc) as [[acc'|e] v'] eqn:Ei;
      [|discriminate].
    destruct (deserialize_items flag f rest acc') as [r' rest'] eqn:E.
    injection H as -> _.
    destruct (IH _ _ _ E Hrest) as [IHout IHin].
    pose proof (deserialize_item_key _ _ _ _ _ _ _ Ei acc' eq_refl) as Hacc.
    split.
    + intros key Hn. rewrite IHout by tauto.
      destruct (decoded_key flag k).
      * destruct Hacc as [x ->]. apply dict_get_set_ne. tauto.
      * now subst.
    + intros key value Hget Hdk. key_cases k key.
      * subst k. injection Hget as ->.
        destruct (deserialize_item_value _ _ _ _ _ _ _ Ei Hdk) as (x & -> & Hx).
        exists x. split; [|exact Hx].
        rewrite IHout by assumption. apply dict_get_set_eq.
      * now apply IHin.
Qed.

(** What the field loop decodes: for a key that is not skipped, the entry
    of the decoded fields is what [deserialize] returns for the value when the
    value is a list or a tagged mapping, and is the value itself otherwise;
    in particular a mapping without a tag is handed on as it is, whatever it
    holds. *)
Theorem field_loop_decodes_lists_and_tagged_mappings
    (R : registries) (flag : bool) (obj dd obj' : pydict)
    (key : string) (value : pyvalue) :
  deserialize_items flag (deserialize R flag) obj [] = (Ok dd, obj') ->
  List.NoDup (dict_keys obj) ->
  dict_get obj key = Some value ->
  decoded_key flag key = true ->
  (is_list value || is_tagged_dict value = true ->
   exists x, fst (deserialize R flag value) = Ok x /\ dict_get dd key = Some x) /\
  (is_list value || is_tagged_dict value = false -> dict_get dd key = Some value).
Proof.
  intros H Hnd Hget Hdk.
  destruct (deserialize_items_lookup _ _ _ _ _ _ H Hnd) as [_ Hin].
  destruct (Hin key value Hget Hdk) as (x & Hx & Hv).
  split; intros Hb; rewrite Hb in Hv.
  - eauto.
  - now subst.
Qed.

Lemma field_loop_decodes_lists_and_tagged_mappings_witness :
  dict_get [("stops", VDict [("first", VDict [("x", VInt 1);
                                              ("_serialized_type", VStr "app.Point")])])]
    "stops"
  = Some (VDict [("first", VDict [("x", VInt 1);
                                  ("_serialized_type", VStr "app.Point")])]).
Proof.
  refine (proj2 (field_loop_decodes_lists_and_tagged_mappings app_registries false
                   [("stops", VDict [("first", VDict [("x", VInt 1);
                                       ("_serialized_type", VStr "app.Point")])]);
                    ("_serialized_type", VStr "app.Session")]
                   _ _ "stops" _ eq_refl _ eq_refl eq_refl) eq_refl).
  repeat constructor; simpl; intuition discriminate.
Defined.

(** ** What [serialize] returns *)

Lemma mapM_Forall_out {A B} (f : A -> result B) (P : B -> Prop) (l : list A) :
  (forall x y, f x = Ok y -> P y) ->
  forall l', mapM f l = Ok l' -> Forall P l'.
Proof.
  intros Hf. induction l as [|x l IH]; simpl; intros l' H.
  - injection H as <-. constructor.
  - destruct (f x) as [y|e] eqn:Ex; simpl in H; [|discriminate].
    destruct (mapM f l) as [ys|e]; simpl in H; [|discriminate].
    injection H as <-. constructor; eauto.
Qed.

Lemma dumps_loads_plain default fuel :
  forall o j, dumps_loads default fuel o = Ok j -> plain j.
Proof.
  induction fuel as [|fuel IH]; intros o j; simpl; [discriminate|].
  destruct o as [| | | |l|d|t d|t s]; try (intros [= <-]; constructor).
  - destruct (mapM (dumps_loads default fuel) l) as [l'|e] eqn:E; simpl;
      [|discriminate].
    intros [= <-]. constructor. eapply mapM_Forall_out; [|exact E]. exact IH.
  - destruct (mapM _ d) as [d'|e] eqn:E; simpl; [|discriminate].
    intros [= <-]. constructor.
    eapply (mapM_Forall_out _ (fun kv => plain (snd kv))); [|exact E].
    intros [k v] [k' v'] H. simpl in H.
    destruct (dumps_loads default fuel v) as [w|e] eqn:Ev; simpl in H;
      [|discriminate].
    injection H as <- <-. simpl. eapply IH; eauto.
  - destruct (default (VObj t d)) as [o'|e]; simpl; [|discriminate]. apply IH.
  - destruct (default (VOpaque t s)) as [o'|e]; simpl; [|discriminate]. apply IH.
Qed.

(** Whatever [serialize] returns is made of scalars, lists and dictionaries
    only: no instance is left in a representation, at any depth. *)
Theorem serialize_returns_plain_data
    (fuel : nat) (R : registries) (obj : pyvalue) (flag : bool) (j : pyvalue) :
  serialize fuel R obj flag = Ok j -> plain j.
Proof. unfold serialize. apply dumps_loads_plain. Qed.

Lemma serialize_returns_plain_data_witness :
  plain (VDict [("x", VInt 1); ("y", VInt 2); ("_serialized_type", VStr "app.Point")]).
Proof.
  apply (serialize_returns_plain_data 3 app_registries a_point false).
  reflexivity.
Defined.

(** A representation is its own representation: what [serialize] returned
    for a value is returned unchanged by [serialize] again, under any
    registries and either flag, once the recursion limit is large enough. *)
Theorem serialize_is_idempotent
    (fuel : nat) (R R' : registries) (obj : pyvalue) (flag flag' : bool)
    (j : pyvalue) :
  serialize fuel R obj flag = Ok j ->
  exists n, forall fuel', n <= fuel' -> serialize fuel' R' j flag' = Ok j.
Proof.
  intros H. apply plain_dumps_loads. unfold serialize in H.
  eapply dumps_loads_plain. exact H.
Qed.

Lemma serialize_is_idempotent_witness :
  exists n, forall fuel', n <= fuel' ->
    serialize fuel' module_registries
      (VDict [("x", VInt 1); ("y", VInt 2); ("_serialized_type", VStr "app.Point")])
      true
    = Ok (VDict [("x", VInt 1); ("y", VInt 2);
                 ("_serialized_type", VStr "app.Point")]).
Proof.
  apply (serialize_is_idempotent 3 app_registries module_registries a_point
           false true).
  reflexivity.
Defined.

(** ** What [serialize_object] leaves on the object *)

Lemma dict_del_set_fresh (d : pydict) key v :
  ~ In key (dict_keys d) -> dict_del (dict_set d key v) key = d.
Proof.
  intros Hn. rewrite dict_set_fresh by assumption. rewrite dict_del_app.
  rewrite dict_del_absent by assumption.
  unfold dict_del. simpl. rewrite String.eqb_refl. simpl. apply app_nil_r.
Qed.









(** ** How representations are composed *)




(** A serializer and a deserializer that are registered for the same type
    meet: the tag that [serialize_object] writes is the [__name__] under
    which the deserializer is found, and for the mapping that
    [serialize_object] returns, [deserialize_dict] returns what the
    deserializer makes of the serializer's own mapping. *)
Theorem codec_pair_meets
    (R : registries) (obj : pyvalue) (f : encoder) (g : decoder) (d : pydict)
    (flag flag' : bool) :
  serializers R !! type_of obj = Some f ->
  deserializers R !! ty_name (type_of obj) = Some g ->
  fst (f obj) = Ok (VDict d) ->
  dict_get d discriminator = None ->
  exists rep,
    fst (serialize_object R obj flag) = Ok (VDict rep) /\
    rep = d ++ [(discriminator, VStr (ty_name (type_of obj)))] /\
    fst (deserialize_dict R flag' rep) = fst (g d).
Proof.
  intros Hs Hg Hf Hnone. apply dict_get_None in Hnone.
  exists (dict_set d discriminator (VStr (ty_name (type_of obj)))).
  split; [|split].
  - unfold serialize_object; cbv zeta. rewrite Hs.
    destruct (f obj) as [r obj']. simpl in Hf. now subst r.
  - now apply dict_set_fresh.
  - unfold deserialize_dict, deserialize_dict_with.
    rewrite dict_get_set_eq. simpl registry_get. rewrite Hg.
    rewrite dict_del_set_fresh by assumption.
    now destruct (g d) as [[r|e] m].
Qed.

Lemma codec_pair_meets_witness :
  exists rep,
    fst (serialize_object module_registries a_datetime false) = Ok (VDict rep) /\
    rep = [("datetime", VStr "2023-01-01 00:00:00")]
          ++ [(discriminator, VStr "datetime")] /\
    fst (deserialize_dict module_registries false rep) = Ok a_datetime.
Proof.
  apply (codec_pair_meets module_registries a_datetime serialize_datetime
           deserialize_datetime [("datetime", VStr "2023-01-01 00:00:00")]
           false false); reflexivity.
Defined.
